(** * LDAP connector options of guard: search requests, flags and arguments

    Shallow embedding of [ldap/options.go] (package [ldap]): the [Options]
    struct, its flag registration [AddFlags], the argument rendering
    [ToArgs], the two search-request builders and [Validate]; and of the
    installer command of package [cmds], which writes the Kubernetes
    objects that run the guard server with these options.

    Go strings are byte sequences and are modelled by [string]; Go [int] by
    [Z]; slices by [list].  Methods with a pointer receiver [(o *Options)]
    run in the state monad over the receiver, so that a store through the
    pointer would be visible in the final state; the value-receiver method
    [ToArgs] is a plain function. *)

From Stdlib Require Import List String Ascii Bool ZArith Lia.
From ExtLib Require Import Structures.Monad Structures.MonadState.
From ExtLib Require Import Data.Monads.StateMonad Data.Monads.EitherMonad.
Import ListNotations.
Import MonadNotation.
Local Open Scope monad_scope.
Local Open Scope string_scope.

(** ** The fragment of [fmt.Sprintf] the package uses *)

Module fmt.

(** Operands left over once the format is exhausted are reported by Go as
    [%!(EXTRA type=value, ...)]; every operand here is a string. *)
Fixpoint extraOperands (a : list string) : string :=
  match a with
  | [] => ""
  | [x] => "string=" ++ x
  | x :: rest => "string=" ++ x ++ ", " ++ extraOperands rest
  end.

Definition extra (a : list string) : string :=
  match a with
  | [] => ""
  | _ => "%!(EXTRA " ++ extraOperands a ++ ")"
  end.

(** One verb applied to one string operand: [%s] and [%v] print the
    operand as it is.  Any other verb character is rendered with Go's
    bad-verb notation; the verbs [q], [x], [X], [T], [p] and flags or
    widths are outside this fragment and no format string of the package
    uses them. *)
Definition verb (c : ascii) (x : string) : string :=
  if (c =? "s")%char || (c =? "v")%char then x
  else "%!" ++ String c ("(string=" ++ x ++ ")").

(** [Sprintf format a...] over string operands. *)
Fixpoint Sprintf (format : string) (a : list string) {struct format} : string :=
  match format with
  | EmptyString => extra a
  | String c rest =>
      if (c =? "%")%char then
        match rest with
        | EmptyString => "%!(NOVERB)" ++ extra a
        | String v rest' =>
            if (v =? "%")%char then String "%" (Sprintf rest' a)
            else match a with
                 | [] => "%!" ++ String v ("(MISSING)" ++ Sprintf rest' [])
                 | x :: a' => verb v x ++ Sprintf rest' a'
                 end
        end
      else String c (Sprintf rest a)
  end.

End fmt.

(** ** What the package uses of [github.com/go-ldap/ldap] *)

Module ldap.

(** Search scopes and alias dereferencing policies are [int] constants. *)
Definition ScopeBaseObject : Z := 0.
Definition ScopeSingleLevel : Z := 1.
Definition ScopeWholeSubtree : Z := 2.

Definition NeverDerefAliases : Z := 0.
Definition DerefInSearching : Z := 1.
Definition DerefFindingBaseObj : Z := 2.
Definition DerefAlways : Z := 3.

(** [ldap.SearchRequest]; a field a struct literal leaves out holds the
    zero value of its type ([nil] for the slices). *)
Record SearchRequest : Type := {
  BaseDN : string;
  Scope : Z;
  DerefAliases : Z;
  SizeLimit : Z;
  TimeLimit : Z;
  TypesOnly : bool;
  Filter : string;
  Attributes : list string;
  Controls : list string
}.

End ldap.

(** ** What the package uses of [github.com/spf13/pflag] *)

Module pflag.

(** A registered flag: its name, help text and the printed default. *)
Record Flag : Type := {
  Name : string;
  Usage : string;
  DefValue : string
}.

(** The flags of a set, in registration order. *)
Definition FlagSet : Type := list Flag.

Definition FormatBool (b : bool) : string := if b then "true" else "false".

End pflag.

(** ** [Options] *)

(** [x509.CertPool], of which the package only holds a pointer: the
    certificates of the pool, one string each. *)
Definition CertPool : Type := list string.

Record Options : Type := {
  ServerAddress : string;
  ServerPort : string;
  BindDN : string;
  BindPassword : string;
  UserSearchDN : string;
  UserSearchFilter : string;
  UserAttribute : string;
  GroupSearchDN : string;
  GroupSearchFilter : string;
  GroupMemberAttribute : string;
  GroupNameAttribute : string;
  SkipTLSVerification : bool;
  IsSecureLDAP : bool;
  StartTLS : bool;
  CaCertFile : string;
  CaCertPool : option CertPool
}.

(** The zero value of the struct, [Options{}]. *)
Definition zeroOptions : Options :=
  {| ServerAddress := ""; ServerPort := ""; BindDN := ""; BindPassword := "";
     UserSearchDN := ""; UserSearchFilter := ""; UserAttribute := "";
     GroupSearchDN := ""; GroupSearchFilter := ""; GroupMemberAttribute := "";
     GroupNameAttribute := ""; SkipTLSVerification := false;
     IsSecureLDAP := false; StartTLS := false; CaCertFile := "";
     CaCertPool := None |}.

(** The package constants [Default...] that [AddFlags] uses are declared
    outside [options.go]; each takes the documented default, which the
    comment of its field in [Options] repeats. *)

(** Modelled from the spec: the constant [DefaultUserSearchFilter], declared
    outside [options.go]; [userSearchFilter = (objectClass=person)]. *)
Definition DefaultUserSearchFilter : string := "(objectClass=person)".

(** Modelled from the spec: the constant [DefaultUserAttribute], declared
    outside [options.go]; [userAttribute = uid]. *)
Definition DefaultUserAttribute : string := "uid".

(** Modelled from the spec: the constant [DefaultGroupSearchFilter], declared
    outside [options.go]; [groupSearchFilter = (objectClass=groupOfNames)]. *)
Definition DefaultGroupSearchFilter : string := "(objectClass=groupOfNames)".

(** Modelled from the spec: the constant [DefaultGroupMemberAttribute], declared
    outside [options.go]; [groupMemberAttribute = member]. *)
Definition DefaultGroupMemberAttribute : string := "member".

(** Modelled from the spec: the constant [DefaultGroupNameAttribute], declared
    outside [options.go]; [groupNameAttribute = cn]. *)
Definition DefaultGroupNameAttribute : string := "cn".

(** Stores through [&o.Field], one per field a flag is bound to. *)
Definition set_ServerAddress (v : string) (o : Options) : Options :=
  {| ServerAddress := v; ServerPort := o.(ServerPort); BindDN := o.(BindDN);
     BindPassword := o.(BindPassword); UserSearchDN := o.(UserSearchDN);
     UserSearchFilter := o.(UserSearchFilter); UserAttribute := o.(UserAttribute);
     GroupSearchDN := o.(GroupSearchDN); GroupSearchFilter := o.(GroupSearchFilter);
     GroupMemberAttribute := o.(GroupMemberAttribute);
     GroupNameAttribute := o.(GroupNameAttribute);
     SkipTLSVerification := o.(SkipTLSVerification); IsSecureLDAP := o.(IsSecureLDAP);
     StartTLS := o.(StartTLS); CaCertFile := o.(CaCertFile); CaCertPool := o.(CaCertPool) |}.

Definition set_ServerPort (v : string) (o : Options) : Options :=
  {| ServerAddress := o.(ServerAddress); ServerPort := v; BindDN := o.(BindDN);
     BindPassword := o.(BindPassword); UserSearchDN := o.(UserSearchDN);
     UserSearchFilter := o.(UserSearchFilter); UserAttribute := o.(UserAttribute);
     GroupSearchDN := o.(GroupSearchDN); GroupSearchFilter := o.(GroupSearchFilter);
     GroupMemberAttribute := o.(GroupMemberAttribute);
     GroupNameAttribute := o.(GroupNameAttribute);
     SkipTLSVerification := o.(SkipTLSVerification); IsSecureLDAP := o.(IsSecureLDAP);
     StartTLS := o.(StartTLS); CaCertFile := o.(CaCertFile); CaCertPool := o.(CaCertPool) |}.

Definition set_BindDN (v : string) (o : Options) : Options :=
  {| ServerAddress := o.(ServerAddress); ServerPort := o.(ServerPort); BindDN := v;
     BindPassword := o.(BindPassword); UserSearchDN := o.(UserSearchDN);
     UserSearchFilter := o.(UserSearchFilter); UserAttribute := o.(UserAttribute);
     GroupSearchDN := o.(GroupSearchDN); GroupSearchFilter := o.(GroupSearchFilter);
     GroupMemberAttribute := o.(GroupMemberAttribute);
     GroupNameAttribute := o.(GroupNameAttribute);
     SkipTLSVerification := o.(SkipTLSVerification); IsSecureLDAP := o.(IsSecureLDAP);
     StartTLS := o.(StartTLS); CaCertFile := o.(CaCertFile); CaCertPool := o.(CaCertPool) |}.

Definition set_BindPassword (v : string) (o : Options) : Options :=
  {| ServerAddress := o.(ServerAddress); ServerPort := o.(ServerPort); BindDN := o.(BindDN);
     BindPassword := v; UserSearchDN := o.(UserSearchDN);
     UserSearchFilter := o.(UserSearchFilter); UserAttribute := o.(UserAttribute);
     GroupSearchDN := o.(GroupSearchDN); GroupSearchFilter := o.(GroupSearchFilter);
     GroupMemberAttribute := o.(GroupMemberAttribute);
     GroupNameAttribute := o.(GroupNameAttribute);
     SkipTLSVerification := o.(SkipTLSVerification); IsSecureLDAP := o.(IsSecureLDAP);
     StartTLS := o.(StartTLS); CaCertFile := o.(CaCertFile); CaCertPool := o.(CaCertPool) |}.

Definition set_UserSearchDN (v : string) (o : Options) : Options :=
  {| ServerAddress := o.(ServerAddress); ServerPort := o.(ServerPort); BindDN := o.(BindDN);
     BindPassword := o.(BindPassword); UserSearchDN := v;
     UserSearchFilter := o.(UserSearchFilter); UserAttribute := o.(UserAttribute);
     GroupSearchDN := o.(GroupSearchDN); GroupSearchFilter := o.(GroupSearchFilter);
     GroupMemberAttribute := o.(GroupMemberAttribute);
     GroupNameAttribute := o.(GroupNameAttribute);
     SkipTLSVerification := o.(SkipTLSVerification); IsSecureLDAP := o.(IsSecureLDAP);
     StartTLS := o.(StartTLS); CaCertFile := o.(CaCertFile); CaCertPool := o.(CaCertPool) |}.

Definition set_UserSearchFilter (v : string) (o : Options) : Options :=
  {| ServerAddress := o.(ServerAddress); ServerPort := o.(ServerPort); BindDN := o.(BindDN);
     BindPassword := o.(BindPassword); UserSearchDN := o.(UserSearchDN);
     UserSearchFilter := v; UserAttribute := o.(UserAttribute);
     GroupSearchDN := o.(GroupSearchDN); GroupSearchFilter := o.(GroupSearchFilter);
     GroupMemberAttribute := o.(GroupMemberAttribute);
     GroupNameAttribute := o.(GroupNameAttribute);
     SkipTLSVerification := o.(SkipTLSVerification); IsSecureLDAP := o.(IsSecureLDAP);
     StartTLS := o.(StartTLS); CaCertFile := o.(CaCertFile); CaCertPool := o.(CaCertPool) |}.

Definition set_UserAttribute (v : string) (o : Options) : Options :=
  {| ServerAddress := o.(ServerAddress); ServerPort := o.(ServerPort); BindDN := o.(BindDN);
     BindPassword := o.(BindPassword); UserSearchDN := o.(UserSearchDN);
     UserSearchFilter := o.(UserSearchFilter); UserAttribute := v;
     GroupSearchDN := o.(GroupSearchDN); GroupSearchFilter := o.(GroupSearchFilter);
     GroupMemberAttribute := o.(GroupMemberAttribute);
     GroupNameAttribute := o.(GroupNameAttribute);
     SkipTLSVerification := o.(SkipTLSVerification); IsSecureLDAP := o.(IsSecureLDAP);
     StartTLS := o.(StartTLS); CaCertFile := o.(CaCertFile); CaCertPool := o.(CaCertPool) |}.

Definition set_GroupSearchDN (v : string) (o : Options) : Options :=
  {| ServerAddress := o.(ServerAddress); ServerPort := o.(ServerPort); BindDN := o.(BindDN);
     BindPassword := o.(BindPassword); UserSearchDN := o.(UserSearchDN);
     UserSearchFilter := o.(UserSearchFilter); UserAttribute := o.(UserAttribute);
     GroupSearchDN := v; GroupSearchFilter := o.(GroupSearchFilter);
     GroupMemberAttribute := o.(GroupMemberAttribute);
     GroupNameAttribute := o.(GroupNameAttribute);
     SkipTLSVerification := o.(SkipTLSVerification); IsSecureLDAP := o.(IsSecureLDAP);
     StartTLS := o.(StartTLS); CaCertFile := o.(CaCertFile); CaCertPool := o.(CaCertPool) |}.

Definition set_GroupSearchFilter (v : string) (o : Options) : Options :=
  {| ServerAddress := o.(ServerAddress); ServerPort := o.(ServerPort); BindDN := o.(BindDN);
     BindPassword := o.(BindPassword); UserSearchDN := o.(UserSearchDN);
     UserSearchFilter := o.(UserSearchFilter); UserAttribute := o.(UserAttribute);
     GroupSearchDN := o.(GroupSearchDN); GroupSearchFilter := v;
     GroupMemberAttribute := o.(GroupMemberAttribute);
     GroupNameAttribute := o.(GroupNameAttribute);
     SkipTLSVerification := o.(SkipTLSVerification); IsSecureLDAP := o.(IsSecureLDAP);
     StartTLS := o.(StartTLS); CaCertFile := o.(CaCertFile); CaCertPool := o.(CaCertPool) |}.

Definition set_GroupMemberAttribute (v : string) (o : Options) : Options :=
  {| ServerAddress := o.(ServerAddress); ServerPort := o.(ServerPort); BindDN := o.(BindDN);
     BindPassword := o.(BindPassword); UserSearchDN := o.(UserSearchDN);
     UserSearchFilter := o.(UserSearchFilter); UserAttribute := o.(UserAttribute);
     GroupSearchDN := o.(GroupSearchDN); GroupSearchFilter := o.(GroupSearchFilter);
     GroupMemberAttribute := v;
     GroupNameAttribute := o.(GroupNameAttribute);
     SkipTLSVerification := o.(SkipTLSVerification); IsSecureLDAP := o.(IsSecureLDAP);
     StartTLS := o.(StartTLS); CaCertFile := o.(CaCertFile); CaCertPool := o.(CaCertPool) |}.

Definition set_GroupNameAttribute (v : string) (o : Options) : Options :=
  {| ServerAddress := o.(ServerAddress); ServerPort := o.(ServerPort); BindDN := o.(BindDN);
     BindPassword := o.(BindPassword); UserSearchDN := o.(UserSearchDN);
     UserSearchFilter := o.(UserSearchFilter); UserAttribute := o.(UserAttribute);
     GroupSearchDN := o.(GroupSearchDN); GroupSearchFilter := o.(GroupSearchFilter);
     GroupMemberAttribute := o.(GroupMemberAttribute);
     GroupNameAttribute := v;
     SkipTLSVerification := o.(SkipTLSVerification); IsSecureLDAP := o.(IsSecureLDAP);
     StartTLS := o.(StartTLS); CaCertFile := o.(CaCertFile); CaCertPool := o.(CaCertPool) |}.

Definition set_SkipTLSVerification (v : bool) (o : Options) : Options :=
  {| ServerAddress := o.(ServerAddress); ServerPort := o.(ServerPort); BindDN := o.(BindDN);
     BindPassword := o.(BindPassword); UserSearchDN := o.(UserSearchDN);
     UserSearchFilter := o.(UserSearchFilter); UserAttribute := o.(UserAttribute);
     GroupSearchDN := o.(GroupSearchDN); GroupSearchFilter := o.(GroupSearchFilter);
     GroupMemberAttribute := o.(GroupMemberAttribute);
     GroupNameAttribute := o.(GroupNameAttribute);
     SkipTLSVerification := v; IsSecureLDAP := o.(IsSecureLDAP);
     StartTLS := o.(StartTLS); CaCertFile := o.(CaCertFile); CaCertPool := o.(CaCertPool) |}.

Definition set_IsSecureLDAP (v : bool) (o : Options) : Options :=
  {| ServerAddress := o.(ServerAddress); ServerPort := o.(ServerPort); BindDN := o.(BindDN);
     BindPassword := o.(BindPassword); UserSearchDN := o.(UserSearchDN);
     UserSearchFilter := o.(UserSearchFilter); UserAttribute := o.(UserAttribute);
     GroupSearchDN := o.(GroupSearchDN); GroupSearchFilter := o.(GroupSearchFilter);
     GroupMemberAttribute := o.(GroupMemberAttribute);
     GroupNameAttribute := o.(GroupNameAttribute);
     SkipTLSVerification := o.(SkipTLSVerification); IsSecureLDAP := v;
     StartTLS := o.(StartTLS); CaCertFile := o.(CaCertFile); CaCertPool := o.(CaCertPool) |}.

Definition set_StartTLS (v : bool) (o : Options) : Options :=
  {| ServerAddress := o.(ServerAddress); ServerPort := o.(ServerPort); BindDN := o.(BindDN);
     BindPassword := o.(BindPassword); UserSearchDN := o.(UserSearchDN);
     UserSearchFilter := o.(UserSearchFilter); UserAttribute := o.(UserAttribute);
     GroupSearchDN := o.(GroupSearchDN); GroupSearchFilter := o.(GroupSearchFilter);
     GroupMemberAttribute := o.(GroupMemberAttribute);
     GroupNameAttribute := o.(GroupNameAttribute);
     SkipTLSVerification := o.(SkipTLSVerification); IsSecureLDAP := o.(IsSecureLDAP);
     StartTLS := v; CaCertFile := o.(CaCertFile); CaCertPool := o.(CaCertPool) |}.

Definition set_CaCertFile (v : string) (o : Options) : Options :=
  {| ServerAddress := o.(ServerAddress); ServerPort := o.(ServerPort); BindDN := o.(BindDN);
     BindPassword := o.(BindPassword); UserSearchDN := o.(UserSearchDN);
     UserSearchFilter := o.(UserSearchFilter); UserAttribute := o.(UserAttribute);
     GroupSearchDN := o.(GroupSearchDN); GroupSearchFilter := o.(GroupSearchFilter);
     GroupMemberAttribute := o.(GroupMemberAttribute);
     GroupNameAttribute := o.(GroupNameAttribute);
     SkipTLSVerification := o.(SkipTLSVerification); IsSecureLDAP := o.(IsSecureLDAP);
     StartTLS := o.(StartTLS); CaCertFile := v; CaCertPool := o.(CaCertPool) |}.


(** [fs.StringVar(p, name, value, usage)]: the default [value] is stored
    through [p] at registration, and the flag joins the set. *)
Definition StringVar (p : string -> Options -> Options) (name value usage : string)
    (fs : pflag.FlagSet) : state Options pflag.FlagSet :=
  modify (p value) ;;
  ret (fs ++ [ {| pflag.Name := name; pflag.Usage := usage; pflag.DefValue := value |} ])%list.

(** [fs.BoolVar(p, name, value, usage)]. *)
Definition BoolVar (p : bool -> Options -> Options) (name : string) (value : bool)
    (usage : string) (fs : pflag.FlagSet) : state Options pflag.FlagSet :=
  modify (p value) ;;
  ret (fs ++ [ {| pflag.Name := name; pflag.Usage := usage;
                  pflag.DefValue := pflag.FormatBool value |} ])%list.

(** [func (o *Options) AddFlags(fs *pflag.FlagSet)]; the result is the flag
    set after the call.  A default written [o.Field] is read from the
    receiver when its line runs. *)
Definition AddFlags (fs : pflag.FlagSet) : state Options pflag.FlagSet :=
  o <- get ;;
  fs <- StringVar set_ServerAddress "ldap.server-address" o.(ServerAddress)
          "Host or IP of the LDAP server" fs ;;
  fs <- StringVar set_ServerPort "ldap.server-port" "389" "LDAP server port" fs ;;
  o <- get ;;
  fs <- StringVar set_BindDN "ldap.bind-dn" o.(BindDN)
          "The connector uses this DN in credentials to search for users and groups. Not required if the LDAP server provides access for anonymous auth." fs ;;
  o <- get ;;
  fs <- StringVar set_BindPassword "ldap.bind-password" o.(BindPassword)
          "The connector uses this password in credentials to search for users and groups. Not required if the LDAP server provides access for anonymous auth." fs ;;
  o <- get ;;
  fs <- StringVar set_UserSearchDN "ldap.user-search-dn" o.(UserSearchDN)
          "BaseDN to start the search user" fs ;;
  fs <- StringVar set_UserSearchFilter "ldap.user-search-filter" DefaultUserSearchFilter
          "Filter to apply when searching user" fs ;;
  fs <- StringVar set_UserAttribute "ldap.user-attribute" DefaultUserAttribute
          "Ldap username attribute" fs ;;
  o <- get ;;
  fs <- StringVar set_GroupSearchDN "ldap.group-search-dn" o.(GroupSearchDN)
          "BaseDN to start the search group" fs ;;
  fs <- StringVar set_GroupSearchFilter "ldap.group-search-filter" DefaultGroupSearchFilter
          "Filter to apply when searching the groups that user is member of" fs ;;
  fs <- StringVar set_GroupMemberAttribute "ldap.group-member-attribute"
          DefaultGroupMemberAttribute "Ldap group member attribute" fs ;;
  fs <- StringVar set_GroupNameAttribute "ldap.group-name-attribute"
          DefaultGroupNameAttribute "Ldap group name attribute" fs ;;
  fs <- BoolVar set_SkipTLSVerification "ldap.skip-tls-verification" false
          "Skip LDAP server TLS verification, default : false" fs ;;
  fs <- BoolVar set_IsSecureLDAP "ldap.is-secure-ldap" false "Secure LDAP (LDAPS)" fs ;;
  fs <- BoolVar set_StartTLS "ldap.start-tls" false "Start tls connection" fs ;;
  StringVar set_CaCertFile "ldap.ca-cert-file" ""
    "ca cert file that used for self signed server certificate" fs.

(** [s != ""]. *)
Definition nonEmpty (s : string) : bool := negb (s =? "").

(** [func (o Options) ToArgs() []string]. *)
Definition ToArgs (o : Options) : list string :=
  let args : list string := [] in
  let args := if nonEmpty o.(ServerAddress)
    then (args ++ [fmt.Sprintf "--ldap.server-address=%s" [o.(ServerAddress)]])%list else args in
  let args := if nonEmpty o.(ServerPort)
    then (args ++ [fmt.Sprintf "--ldap.server-port=%s" [o.(ServerPort)]])%list else args in
  let args := if nonEmpty o.(BindDN)
    then (args ++ [fmt.Sprintf "--ldap.bind-dn=%s" [o.(BindDN)]])%list else args in
  let args := if nonEmpty o.(BindPassword)
    then (args ++ [fmt.Sprintf "--ldap.bind-password=%s" [o.(BindPassword)]])%list else args in
  let args := if nonEmpty o.(UserSearchDN)
    then (args ++ [fmt.Sprintf "--ldap.user-search-dn=%s" [o.(UserSearchDN)]])%list else args in
  let args := if nonEmpty o.(UserSearchFilter)
    then (args ++ [fmt.Sprintf "--ldap.user-search-filter=%s" [o.(UserSearchFilter)]])%list else args in
  let args := if nonEmpty o.(UserSearchFilter)
    then (args ++ [fmt.Sprintf "--ldap.user-attribute=%s" [o.(UserAttribute)]])%list else args in
  let args := if nonEmpty o.(GroupSearchDN)
    then (args ++ [fmt.Sprintf "--ldap.group-search-dn=%s" [o.(GroupSearchDN)]])%list else args in
  let args := if nonEmpty o.(GroupSearchFilter)
    then (args ++ [fmt.Sprintf "--ldap.group-search-filter=%s" [o.(GroupSearchFilter)]])%list else args in
  let args := if nonEmpty o.(GroupMemberAttribute)
    then (args ++ [fmt.Sprintf "--ldap.group-member-attribute=%s" [o.(GroupMemberAttribute)]])%list else args in
  let args := if nonEmpty o.(GroupNameAttribute)
    then (args ++ [fmt.Sprintf "--ldap.group-name-attribute=%s" [o.(GroupNameAttribute)]])%list else args in
  let args := if o.(SkipTLSVerification)
    then (args ++ ["--ldap.skip-tls-verification"])%list else args in
  let args := if o.(IsSecureLDAP) then (args ++ ["--ldap.is-secure-ldap"])%list else args in
  let args := if o.(StartTLS) then (args ++ ["--ldap.start-tls"])%list else args in
  let args := if nonEmpty o.(CaCertFile)
    then (args ++ [fmt.Sprintf "--ldap.ca-cert-file=/etc/guard/certs/ca.crt" []])%list else args in
  args.

(** One conditional [append] of [ToArgs], and the arguments it contributes. *)
Definition appendIf (b : bool) (x : string) (args : list string) : list string :=
  if b then (args ++ [x])%list else args.

Definition seg (b : bool) (x : string) : list string := if b then [x] else [].

(** [func (o *Options) newUserSearchRequest(username string) *ldap.SearchRequest]:
    request to search user. *)
Definition newUserSearchRequest (username : string) : state Options ldap.SearchRequest :=
  o <- get ;;
  let userFilter :=
    fmt.Sprintf "(&%s(%s=%s))" [o.(UserSearchFilter); o.(UserAttribute); username] in
  ret {| ldap.BaseDN := o.(UserSearchDN);
         ldap.Scope := ldap.ScopeWholeSubtree;
         ldap.DerefAliases := ldap.NeverDerefAliases;
         ldap.SizeLimit := 2;
         ldap.TimeLimit := 10;
         ldap.TypesOnly := false;
         ldap.Filter := userFilter;
         ldap.Attributes := [];
         ldap.Controls := [] |}.

(** [func (o *Options) newGroupSearchRequest(userDN string) *ldap.SearchRequest]:
    request to get user group list. *)
Definition newGroupSearchRequest (userDN : string) : state Options ldap.SearchRequest :=
  o <- get ;;
  let groupFilter :=
    fmt.Sprintf "(&%s(%s=%s))" [o.(GroupSearchFilter); o.(GroupMemberAttribute); userDN] in
  ret {| ldap.BaseDN := o.(GroupSearchDN);
         ldap.Scope := ldap.ScopeWholeSubtree;
         ldap.DerefAliases := ldap.NeverDerefAliases;
         ldap.SizeLimit := 0;
         ldap.TimeLimit := 10;
         ldap.TypesOnly := false;
         ldap.Filter := groupFilter;
         ldap.Attributes := [o.(GroupNameAttribute)];
         ldap.Controls := [] |}.

(** The request a call on configuration [o] returns. *)
Definition userRequest (o : Options) (username : string) : ldap.SearchRequest :=
  evalState (newUserSearchRequest username) o.

Definition groupRequest (o : Options) (userDN : string) : ldap.SearchRequest :=
  evalState (newGroupSearchRequest userDN) o.

(** Go's [error] values, by their message. *)
Definition error : Type := string.

(** [func (o *Options) Validate() []error]. *)
Definition Validate : state Options (list error) :=
  ret [].

(** ** Directory-filter escaping, as the specification words it *)

Definition backslash : ascii := ascii_of_nat 92.

(** The bytes the specification lists: backslash, [*], [(], [)], NUL and
    every byte outside ASCII. *)
Definition mustEscape (c : ascii) : bool :=
  (127 <? nat_of_ascii c)%nat
  || (c =? "(")%char || (c =? ")")%char || (c =? backslash)%char
  || (c =? "*")%char || (c =? zero)%char.

Definition hexDigit (n : nat) : ascii :=
  match String.get n "0123456789abcdef" with
  | Some d => d
  | None => "0"%char
  end.

(** The escaped form of a value: a listed byte becomes a backslash and its
    two hexadecimal digits, any other byte stands for itself. *)
Fixpoint spec_escape (s : string) : string :=
  match s with
  | EmptyString => EmptyString
  | String c rest =>
      if mustEscape c
      then String backslash
             (String (hexDigit (nat_of_ascii c / 16))
                (String (hexDigit (nat_of_ascii c mod 16)) (spec_escape rest)))
      else String c (spec_escape rest)
  end.

(** The filters of section 4.3 of the specification. *)
Definition spec_userFilter (o : Options) (username : string) : string :=
  "(&" ++ o.(UserSearchFilter) ++ "(" ++ o.(UserAttribute) ++ "="
       ++ spec_escape username ++ "))".

Definition spec_groupFilter (o : Options) (userDN : string) : string :=
  "(&" ++ o.(GroupSearchFilter) ++ "(" ++ o.(GroupMemberAttribute) ++ "="
       ++ spec_escape userDN ++ "))".

(** A value none of whose bytes has to be escaped. *)
Fixpoint plain (s : string) : bool :=
  match s with
  | EmptyString => true
  | String c rest => negb (mustEscape c) && plain rest
  end.

(** Parenthesis nesting depth after reading [s] at depth [d]; [None] when a
    closing parenthesis has no partner. *)
Fixpoint depthAfter (s : string) (d : nat) : option nat :=
  match s with
  | EmptyString => Some d
  | String c rest =>
      if (c =? "(")%char then depthAfter rest (S d)
      else if (c =? ")")%char
           then match d with
                | O => None
                | S d' => depthAfter rest d'
                end
           else depthAfter rest d
  end.

(** Balanced parentheses: the well-formedness the specification asks of a
    filter. *)
Definition balanced (s : string) : bool :=
  match depthAfter s 0 with
  | Some O => true
  | _ => false
  end.

Fixpoint parenFree (s : string) : bool :=
  match s with
  | EmptyString => true
  | String c rest => negb ((c =? "(")%char || (c =? ")")%char) && parenFree rest
  end.

(** The configuration the documented defaults describe. *)
Definition defaultOptions : Options := execState (AddFlags []) zeroOptions.

(** The depth at which a value is read inside a compiled filter is 2; the
    value keeps the filter balanced exactly when it returns to that depth. *)
Definition keepsDepth (value : string) : bool :=
  match depthAfter value 2 with
  | Some 2 => true
  | _ => false
  end.


(** ** The installer (package [cmds]): Kubernetes objects for the guard server *)

(** A Go [map[string]string] or [map[string][]byte] literal: its entries in
    source order; the keys of every literal below are distinct. *)
Definition StringMap : Type := list (string * string).

Module metav1.

Definition NamespaceSystem : string := "kube-system".
Definition NamespaceDefault : string := "default".

Record ObjectMeta : Type := {
  Name : string;
  Namespace : string;
  Labels : StringMap;
  Annotations : StringMap
}.

End metav1.

Module intstr.

Inductive IntOrString : Type :=
| FromInt (val : Z)
| FromString (val : string).

End intstr.

Module core.

Definition GroupName : string := "".
Definition URISchemeHTTPS : string := "HTTPS".
Definition TolerationOpExists : string := "Exists".
Definition TaintEffectNoSchedule : string := "NoSchedule".
Definition ServiceTypeClusterIP : string := "ClusterIP".
Definition ProtocolTCP : string := "TCP".

Record Namespace : Type := { Namespace_ObjectMeta : metav1.ObjectMeta }.

Record ServiceAccount : Type := { ServiceAccount_ObjectMeta : metav1.ObjectMeta }.

Record Secret : Type := {
  Secret_ObjectMeta : metav1.ObjectMeta;
  Data : StringMap
}.

Record ContainerPort : Type := { containerPort : Z }.

Record VolumeMount : Type := {
  VolumeMount_Name : string;
  MountPath : string
}.

Record HTTPGetAction : Type := {
  Path : string;
  HTTPGet_Port : intstr.IntOrString;
  Scheme : string
}.

Record Handler : Type := { HTTPGet : option HTTPGetAction }.

Record Probe : Type := {
  Probe_Handler : Handler;
  InitialDelaySeconds : Z
}.

Record Container : Type := {
  Container_Name : string;
  Image : string;
  Args : list string;
  Ports : list ContainerPort;
  VolumeMounts : list VolumeMount;
  ReadinessProbe : option Probe
}.

Record SecretVolumeSource : Type := {
  SecretName : string;
  DefaultMode : option Z
}.

Record VolumeSource : Type := { VolumeSource_Secret : option SecretVolumeSource }.

Record Volume : Type := {
  Volume_Name : string;
  Volume_VolumeSource : VolumeSource
}.

Record Toleration : Type := {
  Key : string;
  Operator : string;
  Effect : string
}.

Record LocalObjectReference : Type := { LocalObjectReference_Name : string }.

Record PodSpec : Type := {
  ServiceAccountName : string;
  Containers : list Container;
  Volumes : list Volume;
  Tolerations : list Toleration;
  ImagePullSecrets : list LocalObjectReference;
  NodeSelector : StringMap
}.

Record PodTemplateSpec : Type := {
  Template_ObjectMeta : metav1.ObjectMeta;
  Template_Spec : PodSpec
}.

Record ServicePort : Type := {
  ServicePort_Name : string;
  Port : Z;
  Protocol : string;
  TargetPort : intstr.IntOrString
}.

Record ServiceSpec : Type := {
  ServiceSpec_Type : string;
  ClusterIP : string;
  ServiceSpec_Ports : list ServicePort;
  Selector : StringMap
}.

Record Service : Type := {
  Service_ObjectMeta : metav1.ObjectMeta;
  Service_Spec : ServiceSpec
}.

End core.

Module apps.

Record DeploymentSpec : Type := {
  Replicas : option Z;
  Template : core.PodTemplateSpec
}.

Record Deployment : Type := {
  ObjectMeta : metav1.ObjectMeta;
  Spec : DeploymentSpec
}.

End apps.

Module rbac.

Definition GroupName : string := "rbac.authorization.k8s.io".
Definition ServiceAccountKind : string := "ServiceAccount".

Record PolicyRule : Type := {
  APIGroups : list string;
  Resources : list string;
  Verbs : list string
}.

Record ClusterRole : Type := {
  ClusterRole_ObjectMeta : metav1.ObjectMeta;
  Rules : list PolicyRule
}.

Record RoleRef : Type := {
  APIGroup : string;
  RoleRef_Kind : string;
  RoleRef_Name : string
}.

Record Subject : Type := {
  Subject_Kind : string;
  Subject_Name : string;
  Subject_Namespace : string
}.

Record ClusterRoleBinding : Type := {
  ClusterRoleBinding_ObjectMeta : metav1.ObjectMeta;
  ClusterRoleBinding_RoleRef : RoleRef;
  Subjects : list Subject
}.

End rbac.

(** What the installer takes from the other packages of the repository and
    from the standard library: the option structs of the token, Google and
    Azure authenticators with the fields and methods it uses, the serving
    options and port of package [server], the build version, and the two
    parsers [net.SplitHostPort] and [strconv.Atoi], each returning its
    values and its error as in Go. *)
Class Packages : Type := {
  tokenOptions : Type;
  googleOptions : Type;
  azureOptions : Type;
  Token_AuthFile : tokenOptions -> string;
  Google_ServiceAccountJsonFile : googleOptions -> string;
  Token_ToArgs : tokenOptions -> list string;
  Google_ToArgs : googleOptions -> list string;
  Azure_ToArgs : azureOptions -> list string;
  SecureServingOptions_ToArgs : list string;
  ServingPort : Z;
  Version : string;
  SplitHostPort : string -> string * string * option error;
  Atoi : string -> Z * option error
}.

(** [stringz.Val(v, def)]: [def] when [v] is empty. *)
Definition Val (v def : string) : string := if (v =? "") then def else v.

(** The conversion [int32(n)] of an [int]: the low 32 bits, signed. *)
Definition int32 (n : Z) : Z := ((n + 2 ^ 31) mod 2 ^ 32 - 2 ^ 31)%Z.

(** [var labels]. *)
Definition labels : StringMap := [("app", "guard")].

(** In-place updates of a deployment: of its pod spec, and of the first
    container of its pod spec.  The one container of the literal in
    [newDeployment] is there at every update; indexing an empty slice would
    panic. *)
Definition updPodSpec (f : core.PodSpec -> core.PodSpec) (d : apps.Deployment)
    : apps.Deployment :=
  {| apps.ObjectMeta := d.(apps.ObjectMeta);
     apps.Spec :=
       {| apps.Replicas := d.(apps.Spec).(apps.Replicas);
          apps.Template :=
            {| core.Template_ObjectMeta :=
                 d.(apps.Spec).(apps.Template).(core.Template_ObjectMeta);
               core.Template_Spec :=
                 f d.(apps.Spec).(apps.Template).(core.Template_Spec) |} |} |}.

Definition updContainer0 (f : core.Container -> core.Container) (d : apps.Deployment)
    : apps.Deployment :=
  updPodSpec (fun s =>
    {| core.ServiceAccountName := s.(core.ServiceAccountName);
       core.Containers := match s.(core.Containers) with
                          | c :: rest => f c :: rest
                          | [] => []
                          end;
       core.Volumes := s.(core.Volumes);
       core.Tolerations := s.(core.Tolerations);
       core.ImagePullSecrets := s.(core.ImagePullSecrets);
       core.NodeSelector := s.(core.NodeSelector) |}) d.

Definition set_ImagePullSecrets (v : list core.LocalObjectReference) (s : core.PodSpec)
    : core.PodSpec :=
  {| core.ServiceAccountName := s.(core.ServiceAccountName);
     core.Containers := s.(core.Containers);
     core.Volumes := s.(core.Volumes);
     core.Tolerations := s.(core.Tolerations);
     core.ImagePullSecrets := v;
     core.NodeSelector := s.(core.NodeSelector) |}.

Definition set_NodeSelector (v : StringMap) (s : core.PodSpec) : core.PodSpec :=
  {| core.ServiceAccountName := s.(core.ServiceAccountName);
     core.Containers := s.(core.Containers);
     core.Volumes := s.(core.Volumes);
     core.Tolerations := s.(core.Tolerations);
     core.ImagePullSecrets := s.(core.ImagePullSecrets);
     core.NodeSelector := v |}.

(** [s.Tolerations = append(s.Tolerations, t)]. *)
Definition append_Tolerations (t : core.Toleration) (s : core.PodSpec) : core.PodSpec :=
  {| core.ServiceAccountName := s.(core.ServiceAccountName);
     core.Containers := s.(core.Containers);
     core.Volumes := s.(core.Volumes);
     core.Tolerations := (s.(core.Tolerations) ++ [t])%list;
     core.ImagePullSecrets := s.(core.ImagePullSecrets);
     core.NodeSelector := s.(core.NodeSelector) |}.

(** [s.Volumes = append(s.Volumes, vol)]. *)
Definition append_Volumes (vol : core.Volume) (s : core.PodSpec) : core.PodSpec :=
  {| core.ServiceAccountName := s.(core.ServiceAccountName);
     core.Containers := s.(core.Containers);
     core.Volumes := (s.(core.Volumes) ++ [vol])%list;
     core.Tolerations := s.(core.Tolerations);
     core.ImagePullSecrets := s.(core.ImagePullSecrets);
     core.NodeSelector := s.(core.NodeSelector) |}.

(** [c.VolumeMounts = append(c.VolumeMounts, volMount)]. *)
Definition append_VolumeMounts (volMount : core.VolumeMount) (c : core.Container)
    : core.Container :=
  {| core.Container_Name := c.(core.Container_Name);
     core.Image := c.(core.Image);
     core.Args := c.(core.Args);
     core.Ports := c.(core.Ports);
     core.VolumeMounts := (c.(core.VolumeMounts) ++ [volMount])%list;
     core.ReadinessProbe := c.(core.ReadinessProbe) |}.

(** [c.Args = append(c.Args, args...)]. *)
Definition append_Args (args : list string) (c : core.Container) : core.Container :=
  {| core.Container_Name := c.(core.Container_Name);
     core.Image := c.(core.Image);
     core.Args := (c.(core.Args) ++ args)%list;
     core.Ports := c.(core.Ports);
     core.VolumeMounts := c.(core.VolumeMounts);
     core.ReadinessProbe := c.(core.ReadinessProbe) |}.

(** What a condition of [newDeployment] adds to a slice. *)
Definition seg_of {A : Type} (b : bool) (x : A) : list A := if b then [x] else [].

Section Installer.

Context {P : Packages}.

(** [type options struct]. *)
Record options : Type := {
  namespace : string;
  addr : string;
  runOnMaster : bool;
  privateRegistry : string;
  imagePullSecret : string;
  Token : tokenOptions;
  Google : googleOptions;
  Azure : azureOptions;
  LDAP : Options
}.

(** [func newNamespace(namespace string) runtime.Object]. *)
Definition newNamespace (namespace : string) : core.Namespace :=
  {| core.Namespace_ObjectMeta :=
       {| metav1.Name := namespace; metav1.Namespace := "";
          metav1.Labels := labels; metav1.Annotations := [] |} |}.

(** [func newSecret(namespace string, cert, key, caCert []byte) runtime.Object]. *)
Definition newSecret (namespace : string) (cert key caCert : string) : core.Secret :=
  {| core.Secret_ObjectMeta :=
       {| metav1.Name := "guard-pki"; metav1.Namespace := namespace;
          metav1.Labels := labels; metav1.Annotations := [] |};
     core.Data := [("ca.crt", caCert); ("tls.crt", cert); ("tls.key", key)] |}.

(** [func newDeployment(opts options) runtime.Object].  The file modes
    [0555] and [0444] of the source are octal: 365 and 292. *)
Definition newDeployment (opts : options) : apps.Deployment :=
  let d :=
    {| apps.ObjectMeta :=
         {| metav1.Name := "guard"; metav1.Namespace := opts.(namespace);
            metav1.Labels := labels; metav1.Annotations := [] |};
       apps.Spec :=
         {| apps.Replicas := Some 1%Z;
            apps.Template :=
              {| core.Template_ObjectMeta :=
                   {| metav1.Name := ""; metav1.Namespace := "";
                      metav1.Labels := labels;
                      metav1.Annotations :=
                        [("scheduler.alpha.kubernetes.io/critical-pod", "")] |};
                 core.Template_Spec :=
                   {| core.ServiceAccountName := "guard";
                      core.Containers :=
                        [ {| core.Container_Name := "guard";
                             core.Image :=
                               fmt.Sprintf "%s/guard:%v"
                                 [opts.(privateRegistry); Val Version "canary"];
                             core.Args := ["run"; "--v=3"];
                             core.Ports := [ {| core.containerPort := ServingPort |} ];
                             core.VolumeMounts :=
                               [ {| core.VolumeMount_Name := "guard-pki";
                                    core.MountPath := "/etc/guard/pki" |} ];
                             core.ReadinessProbe :=
                               Some {| core.Probe_Handler :=
                                         {| core.HTTPGet :=
                                              Some {| core.Path := "/healthz";
                                                      core.HTTPGet_Port :=
                                                        intstr.FromInt ServingPort;
                                                      core.Scheme :=
                                                        core.URISchemeHTTPS |} |};
                                       core.InitialDelaySeconds := int32 30 |} |} ];
                      core.Volumes :=
                        [ {| core.Volume_Name := "guard-pki";
                             core.Volume_VolumeSource :=
                               {| core.VolumeSource_Secret :=
                                    Some {| core.SecretName := "guard-pki";
                                            core.DefaultMode := Some 365%Z |} |} |} ];
                      core.Tolerations :=
                        [ {| core.Key := "CriticalAddonsOnly";
                             core.Operator := core.TolerationOpExists;
                             core.Effect := "" |} ];
                      core.ImagePullSecrets := [];
                      core.NodeSelector := [] |} |} |} |} in
  let d :=
    if nonEmpty opts.(imagePullSecret)
    then updPodSpec (set_ImagePullSecrets
                       [ {| core.LocalObjectReference_Name := opts.(imagePullSecret) |} ]) d
    else d in
  let d :=
    if opts.(runOnMaster)
    then
      let d := updPodSpec (set_NodeSelector [("node-role.kubernetes.io/master", "")]) d in
      updPodSpec (append_Tolerations
                    {| core.Key := "node-role.kubernetes.io/master";
                       core.Operator := core.TolerationOpExists;
                       core.Effect := core.TaintEffectNoSchedule |}) d
    else d in
  let d :=
    if nonEmpty (Token_AuthFile opts.(Token))
       || nonEmpty (Google_ServiceAccountJsonFile opts.(Google))
    then
      let volMount := {| core.VolumeMount_Name := "guard-auth";
                         core.MountPath := "/etc/guard/auth" |} in
      let d := updContainer0 (append_VolumeMounts volMount) d in
      let vol := {| core.Volume_Name := "guard-auth";
                    core.Volume_VolumeSource :=
                      {| core.VolumeSource_Secret :=
                           Some {| core.SecretName := "guard-auth";
                                   core.DefaultMode := Some 365%Z |} |} |} in
      updPodSpec (append_Volumes vol) d
    else d in
  let d :=
    if nonEmpty opts.(LDAP).(CaCertFile)
    then
      let volMount := {| core.VolumeMount_Name := "guard-cert";
                         core.MountPath := "/etc/guard/certs/" |} in
      let d := updContainer0 (append_VolumeMounts volMount) d in
      let vol := {| core.Volume_Name := "guard-cert";
                    core.Volume_VolumeSource :=
                      {| core.VolumeSource_Secret :=
                           Some {| core.SecretName := "guard-cert";
                                   core.DefaultMode := Some 292%Z |} |} |} in
      updPodSpec (append_Volumes vol) d
    else d in
  let d := updContainer0 (append_Args SecureServingOptions_ToArgs) d in
  let d := updContainer0 (append_Args (Token_ToArgs opts.(Token))) d in
  let d := updContainer0 (append_Args (Google_ToArgs opts.(Google))) d in
  let d := updContainer0 (append_Args (Azure_ToArgs opts.(Azure))) d in
  let d := updContainer0 (append_Args (ToArgs opts.(LDAP))) d in
  d.

(** [func newService(namespace, addr string) runtime.Object]; both errors
    are dropped. *)
Definition newService (namespace addr : string) : core.Service :=
  let '(host, port, _) := SplitHostPort addr in
  let '(svcPort, _) := Atoi port in
  {| core.Service_ObjectMeta :=
       {| metav1.Name := "guard"; metav1.Namespace := namespace;
          metav1.Labels := labels; metav1.Annotations := [] |};
     core.Service_Spec :=
       {| core.ServiceSpec_Type := core.ServiceTypeClusterIP;
          core.ClusterIP := host;
          core.ServiceSpec_Ports :=
            [ {| core.ServicePort_Name := "api";
                 core.Port := int32 svcPort;
                 core.Protocol := core.ProtocolTCP;
                 core.TargetPort := intstr.FromInt ServingPort |} ];
          core.Selector := labels |} |}.

(** [func newServiceAccount(namespace string) runtime.Object]. *)
Definition newServiceAccount (namespace : string) : core.ServiceAccount :=
  {| core.ServiceAccount_ObjectMeta :=
       {| metav1.Name := "guard"; metav1.Namespace := namespace;
          metav1.Labels := labels; metav1.Annotations := [] |} |}.

(** [func newClusterRole(namespace string) runtime.Object]. *)
Definition newClusterRole (namespace : string) : rbac.ClusterRole :=
  {| rbac.ClusterRole_ObjectMeta :=
       {| metav1.Name := "guard"; metav1.Namespace := namespace;
          metav1.Labels := labels; metav1.Annotations := [] |};
     rbac.Rules :=
       [ {| rbac.APIGroups := [core.GroupName];
            rbac.Resources := ["nodes"];
            rbac.Verbs := ["list"] |} ] |}.

(** [func newClusterRoleBinding(namespace string) runtime.Object]. *)
Definition newClusterRoleBinding (namespace : string) : rbac.ClusterRoleBinding :=
  {| rbac.ClusterRoleBinding_ObjectMeta :=
       {| metav1.Name := "guard"; metav1.Namespace := namespace;
          metav1.Labels := labels; metav1.Annotations := [] |};
     rbac.ClusterRoleBinding_RoleRef :=
       {| rbac.APIGroup := rbac.GroupName;
          rbac.RoleRef_Kind := "ClusterRole";
          rbac.RoleRef_Name := "guard" |};
     rbac.Subjects :=
       [ {| rbac.Subject_Kind := rbac.ServiceAccountKind;
            rbac.Subject_Name := "guard";
            rbac.Subject_Namespace := namespace |} ] |}.

(** [func newSecretForTokenAuth(namespace string, data map[string][]byte) runtime.Object]. *)
Definition newSecretForTokenAuth (namespace : string) (data : StringMap) : core.Secret :=
  {| core.Secret_ObjectMeta :=
       {| metav1.Name := "guard-auth"; metav1.Namespace := namespace;
          metav1.Labels := labels; metav1.Annotations := [] |};
     core.Data := data |}.

(** [func newSecretForLDAPCert(namespace string, data map[string][]byte) runtime.Object]. *)
Definition newSecretForLDAPCert (namespace : string) (data : StringMap) : core.Secret :=
  {| core.Secret_ObjectMeta :=
       {| metav1.Name := "guard-cert"; metav1.Namespace := namespace;
          metav1.Labels := labels; metav1.Annotations := [] |};
     core.Data := data |}.

(** The pod spec of a deployment. *)
Definition podSpec (d : apps.Deployment) : core.PodSpec :=
  d.(apps.Spec).(apps.Template).(core.Template_Spec).

End Installer.

(** [schema.GroupVersion]. *)
Module schema.

Record GroupVersion : Type := {
  Group : string;
  Version : string
}.

End schema.

(** The [SchemeGroupVersion] of the three API groups the installer writes. *)
Definition core_SchemeGroupVersion : schema.GroupVersion :=
  {| schema.Group := core.GroupName; schema.Version := "v1" |}.
Definition rbac_SchemeGroupVersion : schema.GroupVersion :=
  {| schema.Group := rbac.GroupName; schema.Version := "v1beta1" |}.
Definition apps_SchemeGroupVersion : schema.GroupVersion :=
  {| schema.Group := "apps"; schema.Version := "v1beta1" |}.

(** [runtime.Object], as far as the installer builds objects. *)
Inductive Object : Type :=
| NamespaceObject (o : core.Namespace)
| ServiceAccountObject (o : core.ServiceAccount)
| ClusterRoleObject (o : rbac.ClusterRole)
| ClusterRoleBindingObject (o : rbac.ClusterRoleBinding)
| SecretObject (o : core.Secret)
| DeploymentObject (o : apps.Deployment)
| ServiceObject (o : core.Service).

(** What the command reads from its host: the directory of the
    certificate store (the package variable [rootDir]) joined by
    [filepath.Join], the store of [certstore] with the three methods used,
    the YAML marshaller of [meta], the token file check of package [token]
    and [ioutil.ReadFile].  A call that returns an error beside its value
    is a sum: the error on the left. *)
Class Host : Type := {
  rootDir : string;
  Join : string -> string -> string;
  CertStore : Type;
  NewCertStore : string -> error + CertStore;
  PairExists : CertStore -> string -> bool;
  Location : CertStore -> string;
  ReadBytes : CertStore -> string -> error + (string * string);
  MarshalToYAML : Object -> schema.GroupVersion -> error + string;
  LoadTokenFile : string -> option error;
  ReadFile : string -> error + string
}.

Definition newline : string := String (ascii_of_nat 10) "".

(** The document separator the command writes after an object, a line of
    three dashes. *)
Definition separator : string := "---" ++ newline.

(** [log.Fatalf] and [log.Fatalln] end the process: the run is the message
    logged, on the left, without the line end the logger adds. *)
Definition Fatalf {A : Type} (format : string) (a : list string) : string + A :=
  inl (fmt.Sprintf format a).

Definition Fatalln {A : Type} (err : error) : string + A := inl err.

(** A document of the manifest: an object, the API version it is written
    in, and its YAML text. *)
Definition Document : Type := Object * schema.GroupVersion * string.

Definition marshals {H : Host} (d : Document) : Prop :=
  MarshalToYAML (fst (fst d)) (snd (fst d)) = inr (snd d).

(** The text of documents written one after the other, each followed by the
    separator. *)
Definition written (docs : list Document) : string :=
  fold_right (fun d rest => snd d ++ separator ++ rest) "" docs.

Section Command.

Context {P : Packages} {H : Host}.

(** The steps the command repeats for each object: marshal it, stop on an
    error, write the document and what follows it to the buffer. *)
Definition writeObject (buf : string) (obj : Object) (gv : schema.GroupVersion)
    (after : string) : string + string :=
  match MarshalToYAML obj gv with
  | inl err => Fatalln err
  | inr data => inr (buf ++ data ++ after)
  end.

(** The [Run] function of the command [NewCmdInstaller] returns, on the
    options as the flags left them: on the right, the text printed. *)
Definition Run (opts : options) : string + string :=
  port <- (let '(_, port, err) := SplitHostPort opts.(addr) in
           match err with
           | Some err => Fatalf "Guard server address is invalid. Reason: %v." [err]
           | None => inr port
           end) ;;
  _ <- (let '(_, err) := Atoi port in
        match err with
        | Some err => Fatalf "Guard server port is invalid. Reason: %v." [err]
        | None => inr tt
        end) ;;
  match NewCertStore (Join rootDir "pki") with
  | inl err => Fatalf "Failed to create certificate store. Reason: %v." [err]
  | inr store =>
  _ <- (if negb (PairExists store "ca")
        then Fatalf "CA certificates not found in %s. Run `guard init ca`"
                    [Location store]
        else inr tt) ;;
  _ <- (if negb (PairExists store "server")
        then Fatalf "Server certificate not found in %s. Run `guard init server`"
                    [Location store]
        else inr tt) ;;
  caCert <- match ReadBytes store "ca" with
            | inl err => Fatalf "Failed to load ca certificate. Reason: %v." [err]
            | inr (caCert, _) => inr caCert
            end ;;
  server <- match ReadBytes store "server" with
            | inl err => Fatalf "Failed to load ca certificate. Reason: %v." [err]
            | inr server => inr server
            end ;;
  let '(serverCert, serverKey) := server in
  let buf := "" in
  buf <- (if negb (opts.(namespace) =? metav1.NamespaceSystem)
             && negb (opts.(namespace) =? metav1.NamespaceDefault)
          then writeObject buf (NamespaceObject (newNamespace opts.(namespace)))
                 core_SchemeGroupVersion separator
          else inr buf) ;;
  buf <- writeObject buf (ServiceAccountObject (newServiceAccount opts.(namespace)))
           core_SchemeGroupVersion separator ;;
  buf <- writeObject buf (ClusterRoleObject (newClusterRole opts.(namespace)))
           rbac_SchemeGroupVersion separator ;;
  buf <- writeObject buf
           (ClusterRoleBindingObject (newClusterRoleBinding opts.(namespace)))
           rbac_SchemeGroupVersion separator ;;
  buf <- writeObject buf
           (SecretObject (newSecret opts.(namespace) serverCert serverKey caCert))
           core_SchemeGroupVersion separator ;;
  let secretData : StringMap := [] in
  secretData <- (if nonEmpty (Token_AuthFile opts.(Token))
                 then match LoadTokenFile (Token_AuthFile opts.(Token)) with
                      | Some err => Fatalln err
                      | None =>
                          match ReadFile (Token_AuthFile opts.(Token)) with
                          | inl err => Fatalln err
                          | inr tokens =>
                              inr (secretData ++ [("token.csv", tokens)])%list
                          end
                      end
                 else inr secretData) ;;
  secretData <- (if nonEmpty (Google_ServiceAccountJsonFile opts.(Google))
                 then match ReadFile (Google_ServiceAccountJsonFile opts.(Google)) with
                      | inl err => Fatalln err
                      | inr sa => inr (secretData ++ [("sa.json", sa)])%list
                      end
                 else inr secretData) ;;
  buf <- (if (0 <? List.length secretData)%nat
          then writeObject buf
                 (SecretObject (newSecretForTokenAuth opts.(namespace) secretData))
                 core_SchemeGroupVersion separator
          else inr buf) ;;
  buf <- (if nonEmpty opts.(LDAP).(CaCertFile)
          then match ReadFile opts.(LDAP).(CaCertFile) with
               | inl err => Fatalln err
               | inr cert =>
                   let certData : StringMap := [("ca.crt", cert)] in
                   writeObject buf
                     (SecretObject (newSecretForLDAPCert opts.(namespace) certData))
                     core_SchemeGroupVersion separator
               end
          else inr buf) ;;
  buf <- writeObject buf (DeploymentObject (newDeployment opts))
           apps_SchemeGroupVersion separator ;;
  buf <- writeObject buf (ServiceObject (newService opts.(namespace) opts.(addr)))
           core_SchemeGroupVersion "" ;;
  inr (buf ++ newline)
  end.

End Command.

(** A stand-in for the other packages, for running the model: authenticators
    without options and arguments of their own, and parsers that know the
    default address of the installer and nothing else. *)
Definition plainPackages : Packages :=
  {| tokenOptions := unit;
     googleOptions := unit;
     azureOptions := unit;
     Token_AuthFile := fun _ => "";
     Google_ServiceAccountJsonFile := fun _ => "";
     Token_ToArgs := fun _ => [];
     Google_ToArgs := fun _ => [];
     Azure_ToArgs := fun _ => [];
     SecureServingOptions_ToArgs := [];
     ServingPort := 8443;
     Version := "";
     SplitHostPort := fun a =>
       if a =? "10.96.10.96:443" then ("10.96.10.96", "443", None)
       else ("", "", Some "missing port in address");
     Atoi := fun s =>
       if s =? "443" then (443%Z, None) else (0%Z, Some "invalid syntax") |}.

(** The kind of an object, standing for its YAML text in [plainHost]. *)
Definition kindOf (obj : Object) : string :=
  match obj with
  | NamespaceObject _ => "kind: Namespace"
  | ServiceAccountObject _ => "kind: ServiceAccount"
  | ClusterRoleObject _ => "kind: ClusterRole"
  | ClusterRoleBindingObject _ => "kind: ClusterRoleBinding"
  | SecretObject _ => "kind: Secret"
  | DeploymentObject _ => "kind: Deployment"
  | ServiceObject _ => "kind: Service"
  end.

(** A stand-in for the host, for running the model: every pair exists,
    every file reads as its own path, every object marshals to its kind. *)
Definition plainHost : Host :=
  {| rootDir := "/root/.guard";
     Join := fun dir name => dir ++ "/" ++ name;
     CertStore := string;
     NewCertStore := fun dir => inr dir;
     PairExists := fun _ _ => true;
     Location := fun store => store;
     ReadBytes := fun _ name => inr (name ++ ".crt", name ++ ".key");
     MarshalToYAML := fun obj _ => inr (kindOf obj ++ newline);
     LoadTokenFile := fun _ => None;
     ReadFile := fun file => inr file |}.

(** The options of the installer as [NewCmdInstaller] sets them, with the
    given LDAP options. *)
Definition plainOptions (ldap : Options) : @options plainPackages :=
  @Build_options plainPackages metav1.NamespaceSystem "10.96.10.96:443" true
    "appscode" "" tt tt tt ldap.

(** ** Running the model on concrete inputs *)

Example Sprintf_filter :
  fmt.Sprintf "(&%s(%s=%s))" ["(objectClass=person)"; "uid"; "alice"]
  = "(&(objectClass=person)(uid=alice))".
Proof. reflexivity. Qed.

Example ToArgs_zero : ToArgs zeroOptions = [].
Proof. reflexivity. Qed.

Example AddFlags_zero_port :
  (execState (AddFlags []) zeroOptions).(ServerPort) = "389".
Proof. reflexivity. Qed.

Example spec_escape_star : spec_escape "*" = String backslash "2a".
Proof. reflexivity. Qed.

Example spec_escape_parens :
  spec_escape "a(b)" = "a" ++ String backslash ("28b" ++ String backslash "29").
Proof. reflexivity. Qed.

(** ** Facts about strings, escaping and parentheses *)

Section StringFacts.

Lemma append_nil_r (s : string) : s ++ "" = s.
Proof. induction s as [|c s IH]; simpl; [reflexivity | now rewrite IH]. Qed.

Lemma length_append (s t : string) :
  String.length (s ++ t) = String.length s + String.length t.
Proof. induction s as [|c s IH]; simpl; [reflexivity | now rewrite IH]. Qed.

Lemma append_inj_l (s a b : string) : s ++ a = s ++ b -> a = b.
Proof.
  induction s as [|c s IH]; simpl; intro H; [exact H|].
  injection H as H. exact (IH H).
Qed.

Lemma append_inj_r (t a : string) : forall b, a ++ t = b ++ t -> a = b.
Proof.
  induction a as [|c a IH]; intros [|c' b] H; simpl in H.
  - reflexivity.
  - apply (f_equal String.length) in H. simpl in H. rewrite length_append in H. lia.
  - apply (f_equal String.length) in H. simpl in H. rewrite length_append in H. lia.
  - injection H as Hc H. subst c'. f_equal. exact (IH b H).
Qed.

End StringFacts.

Lemma spec_escape_plain (s : string) : plain s = true -> spec_escape s = s.
Proof.
  induction s as [|c s IH]; simpl; [reflexivity|].
  intro H. apply andb_true_iff in H. destruct H as [Hc Hs].
  apply negb_true_iff in Hc. rewrite Hc. now rewrite (IH Hs).
Qed.

Lemma spec_escape_length (s : string) :
  String.length s <= String.length (spec_escape s).
Proof.
  induction s as [|c s IH]; simpl; [lia|].
  destruct (mustEscape c); simpl; lia.
Qed.

Lemma spec_escape_fixed (s : string) : spec_escape s = s -> plain s = true.
Proof.
  induction s as [|c s IH]; simpl; [reflexivity|].
  destruct (mustEscape c) eqn:Hc; intro H.
  - injection H as _ H.
    apply (f_equal String.length) in H. simpl in H.
    pose proof (spec_escape_length s). lia.
  - injection H as H. simpl. exact (IH H).
Qed.

Lemma depthAfter_app (a b : string) : forall d,
  depthAfter (a ++ b) d
  = match depthAfter a d with
    | Some d' => depthAfter b d'
    | None => None
    end.
Proof.
  induction a as [|c a IH]; intro d; simpl; [reflexivity|].
  destruct (c =? "(")%char; [apply IH|].
  destruct (c =? ")")%char; [destruct d; [reflexivity | apply IH] | apply IH].
Qed.

Lemma depthAfter_parenFree (s : string) : forall d,
  parenFree s = true -> depthAfter s d = Some d.
Proof.
  induction s as [|c s IH]; intros d H; simpl in *; [reflexivity|].
  apply andb_true_iff in H. destruct H as [Hc Hs].
  apply negb_true_iff, orb_false_iff in Hc. destruct Hc as [Ho Hcl].
  rewrite Ho, Hcl. exact (IH d Hs).
Qed.

Lemma depthAfter_deeper (s : string) : forall d d' k,
  depthAfter s d = Some d' -> depthAfter s (k + d) = Some (k + d').
Proof.
  induction s as [|c s IH]; intros d d' k H; simpl in *.
  - injection H as H. now subst.
  - destruct (c =? "(")%char.
    + rewrite plus_n_Sm. exact (IH _ _ k H).
    + destruct (c =? ")")%char; [|exact (IH _ _ k H)].
      destruct d as [|d]; [discriminate|].
      rewrite <- plus_n_Sm. exact (IH _ _ k H).
Qed.

Lemma balanced_at_depth (s : string) (d : nat) :
  balanced s = true -> depthAfter s d = Some d.
Proof.
  unfold balanced. intro H.
  destruct (depthAfter s 0) as [[|n]|] eqn:E; try discriminate.
  pose proof (depthAfter_deeper s 0 0 d E) as H'.
  now rewrite !Nat.add_0_r in H'.
Qed.

Lemma plain_parenFree (s : string) : plain s = true -> parenFree s = true.
Proof.
  induction s as [|c s IH]; simpl; [reflexivity|].
  intro H. apply andb_true_iff in H. destruct H as [Hc Hs].
  rewrite (IH Hs), andb_true_r.
  apply negb_true_iff in Hc. unfold mustEscape in Hc.
  repeat (apply orb_false_iff in Hc; destruct Hc as [Hc ?]).
  apply negb_true_iff, orb_false_iff. split; assumption.
Qed.

(** A conjunction filter around a balanced base filter, a parenthesis-free
    attribute and a parenthesis-free value is balanced. *)
Lemma balanced_conjunction (base attribute value : string) :
  balanced base = true -> parenFree attribute = true -> parenFree value = true ->
  balanced ("(&" ++ base ++ "(" ++ attribute ++ "=" ++ value ++ "))") = true.
Proof.
  intros Hb Ha Hv. unfold balanced. simpl.
  rewrite depthAfter_app, (balanced_at_depth base 1 Hb). simpl.
  rewrite depthAfter_app, (depthAfter_parenFree attribute 2 Ha). simpl.
  rewrite depthAfter_app, (depthAfter_parenFree value 2 Hv). reflexivity.
Qed.

Lemma conjunction_inj (base attribute v w : string) :
  "(&" ++ base ++ "(" ++ attribute ++ "=" ++ v ++ "))"
  = "(&" ++ base ++ "(" ++ attribute ++ "=" ++ w ++ "))" -> v = w.
Proof.
  intro H.
  apply append_inj_l, append_inj_l, append_inj_l, append_inj_l, append_inj_l in H.
  exact (append_inj_r _ _ _ H).
Qed.

(** ** The search requests *)

Section Requests.

Variable o : Options.
Variables username userDN : string.


(** C4: the user search request has size limit exactly 2 and the group
    search request has size limit exactly 0, whatever the configuration
    and the input. *)
Theorem search_request_size_limits :
  ldap.SizeLimit (userRequest o username) = 2%Z /\ ldap.SizeLimit (groupRequest o userDN) = 0%Z.
Proof. split; reflexivity. Qed.

(** C6: both search requests have the whole-subtree scope, and so neither
    the base-object nor the single-level scope. *)
Theorem search_request_scope :
  ldap.Scope (userRequest o username) = ldap.ScopeWholeSubtree
  /\ ldap.Scope (groupRequest o userDN) = ldap.ScopeWholeSubtree
  /\ ldap.Scope (userRequest o username) <> ldap.ScopeBaseObject
  /\ ldap.Scope (userRequest o username) <> ldap.ScopeSingleLevel
  /\ ldap.Scope (groupRequest o userDN) <> ldap.ScopeBaseObject
  /\ ldap.Scope (groupRequest o userDN) <> ldap.ScopeSingleLevel.
Proof.
  repeat split; try reflexivity; cbn; unfold ldap.ScopeWholeSubtree,
    ldap.ScopeBaseObject, ldap.ScopeSingleLevel; lia.
Qed.

(** C10: the group search request asks for exactly one attribute, the
    configured group name attribute; the user search request lists no
    attribute; neither request dereferences aliases. *)
Theorem search_request_attributes :
  ldap.Attributes (groupRequest o userDN) = [o.(GroupNameAttribute)]
  /\ ldap.Attributes (userRequest o username) = []
  /\ ldap.DerefAliases (userRequest o username) = ldap.NeverDerefAliases
  /\ ldap.DerefAliases (groupRequest o userDN) = ldap.NeverDerefAliases.
Proof. repeat split; reflexivity. Qed.

(** C3, as the code has it: the user filter is
    [(&] + userSearchFilter + [(] + userAttribute + [=] + username + [))]
    and the group filter is
    [(&] + groupSearchFilter + [(] + groupMemberAttribute + [=] + userDN + [))],
    the username and the user DN being substituted as they are given. *)
Theorem search_filters_verbatim :
  ldap.Filter (userRequest o username)
  = "(&" ++ o.(UserSearchFilter) ++ "(" ++ o.(UserAttribute) ++ "=" ++ username ++ "))"
  /\ ldap.Filter (groupRequest o userDN)
     = "(&" ++ o.(GroupSearchFilter) ++ "(" ++ o.(GroupMemberAttribute) ++ "="
            ++ userDN ++ "))".
Proof. split; reflexivity. Qed.

(** C7: building a request leaves the configuration as it was, and a
    second invocation on the same configuration and input returns a
    request equal to the first. *)
Theorem request_builders_pure :
  runState (newUserSearchRequest username) o = (userRequest o username, o)
  /\ runState (newGroupSearchRequest userDN) o = (groupRequest o userDN, o)
  /\ runState (r1 <- newUserSearchRequest username ;;
               r2 <- newUserSearchRequest username ;;
               ret (r1, r2)) o = ((userRequest o username, userRequest o username), o)
  /\ runState (r1 <- newGroupSearchRequest userDN ;;
               r2 <- newGroupSearchRequest userDN ;;
               ret (r1, r2)) o = ((groupRequest o userDN, groupRequest o userDN), o)
  /\ runState (g <- newGroupSearchRequest userDN ;;
               u <- newUserSearchRequest username ;;
               ret u) o = (userRequest o username, o).
Proof. repeat split; reflexivity. Qed.

End Requests.

(** C3, as the specification words it, fails on a user DN with parentheses:
    the group filter carries them unescaped. *)
Lemma group_filter_unescaped_dn :
  let userDN := "cn=a(b),dc=example" in
  let request := groupRequest defaultOptions userDN in
  ldap.Filter request = "(&(objectClass=groupOfNames)(member=cn=a(b),dc=example))"
  /\ ldap.Filter request <> spec_groupFilter defaultOptions userDN.
Proof.
  split; [reflexivity|].
  intro H; vm_compute in H; discriminate H.
Qed.

(** ** Flags and defaults *)

(** C5: after [AddFlags], and before any flag is parsed, the configuration
    holds the documented defaults, whatever it held before. *)
Theorem AddFlags_defaults (o : Options) (fs : pflag.FlagSet) :
  let o' := execState (AddFlags fs) o in
  o'.(UserSearchFilter) = "(objectClass=person)"
  /\ o'.(UserAttribute) = "uid"
  /\ o'.(GroupSearchFilter) = "(objectClass=groupOfNames)"
  /\ o'.(GroupMemberAttribute) = "member"
  /\ o'.(GroupNameAttribute) = "cn"
  /\ o'.(ServerPort) = "389".
Proof. repeat split; reflexivity. Qed.

(** ** Validation *)

(** C2, as the specification words it, fails: a configuration with an empty
    server address, and one whose user search filter has an unmatched
    parenthesis, both pass [Validate]. *)
Lemma Validate_accepts_empty_server_address :
  zeroOptions.(ServerAddress) = ""
  /\ evalState Validate zeroOptions = []
  /\ balanced (set_UserSearchFilter "((objectClass=person)" defaultOptions).(UserSearchFilter)
     = false
  /\ evalState Validate (set_UserSearchFilter "((objectClass=person)" defaultOptions) = []
  /\ ~ (forall o : Options, o.(ServerAddress) = "" -> evalState Validate o <> []).
Proof.
  repeat split; try reflexivity.
  intro H. exact (H zeroOptions eq_refl eq_refl).
Qed.

(** C2, as the code has it: [Validate] checks nothing; it returns no error
    for every configuration and leaves the configuration as it was. *)
Theorem Validate_returns_no_error (o : Options) :
  runState Validate o = ([], o).
Proof. reflexivity. Qed.

(** ** Escaping in the compiled filters *)

(** C1, as the specification words it, fails: the username [*] reaches
    the user filter unescaped, where it reads as a presence test on the
    attribute, and the username [(] leaves the filter with an unmatched
    parenthesis, although the configured filter and attribute are well
    formed. *)
Lemma user_filter_wildcard_unescaped :
  let o := defaultOptions in
  ldap.Filter (userRequest o "*") = "(&(objectClass=person)(uid=*))"
  /\ ldap.Filter (userRequest o "*") <> spec_userFilter o "*"
  /\ balanced o.(UserSearchFilter) = true
  /\ parenFree o.(UserAttribute) = true
  /\ ldap.Filter (userRequest o "(") = "(&(objectClass=person)(uid=())"
  /\ balanced (ldap.Filter (userRequest o "(")) = false
  /\ balanced (spec_userFilter o "(") = true.
Proof.
  repeat split; try reflexivity.
  intro H; vm_compute in H; discriminate H.
Qed.

(** C1, as the code has it: the username and the user DN enter the filter
    unescaped, so the compiled filter is the escaped one exactly when the
    input holds none of backslash, [*], [(], [)], NUL and the non-ASCII
    bytes; for such an input, a configured filter with balanced parentheses
    and an attribute name without parentheses give a filter with balanced
    parentheses. *)
Theorem filters_escaped_exactly_for_plain_input
    (o : Options) (username userDN : string) :
  (ldap.Filter (userRequest o username) = spec_userFilter o username
   <-> plain username = true)
  /\ (ldap.Filter (groupRequest o userDN) = spec_groupFilter o userDN
      <-> plain userDN = true)
  /\ (plain username = true -> balanced o.(UserSearchFilter) = true ->
      parenFree o.(UserAttribute) = true ->
      balanced (ldap.Filter (userRequest o username)) = true)
  /\ (plain userDN = true -> balanced o.(GroupSearchFilter) = true ->
      parenFree o.(GroupMemberAttribute) = true ->
      balanced (ldap.Filter (groupRequest o userDN)) = true).
Proof.
  change (ldap.Filter (userRequest o username))
    with ("(&" ++ o.(UserSearchFilter) ++ "(" ++ o.(UserAttribute) ++ "="
               ++ username ++ "))").
  change (ldap.Filter (groupRequest o userDN))
    with ("(&" ++ o.(GroupSearchFilter) ++ "(" ++ o.(GroupMemberAttribute) ++ "="
               ++ userDN ++ "))").
  unfold spec_userFilter, spec_groupFilter.
  repeat split.
  - intro H. apply conjunction_inj in H. now apply spec_escape_fixed.
  - intro H. now rewrite (spec_escape_plain username H).
  - intro H. apply conjunction_inj in H. now apply spec_escape_fixed.
  - intro H. now rewrite (spec_escape_plain userDN H).
  - intros Hp Hb Ha. apply balanced_conjunction; auto using plain_parenFree.
  - intros Hp Hb Ha. apply balanced_conjunction; auto using plain_parenFree.
Qed.

(** The default configuration with the username [alice] and a DN without
    special bytes: the filters are the escaped ones and are balanced. *)
Lemma filters_for_alice :
  let o := defaultOptions in
  let userDN := "uid=alice,ou=people,dc=example" in
  ldap.Filter (userRequest o "alice") = "(&(objectClass=person)(uid=alice))"
  /\ ldap.Filter (userRequest o "alice") = spec_userFilter o "alice"
  /\ ldap.Filter (groupRequest o userDN) = spec_groupFilter o userDN
  /\ balanced (ldap.Filter (userRequest o "alice")) = true
  /\ balanced (ldap.Filter (groupRequest o userDN)) = true.
Proof.
  intros o userDN.
  destruct (filters_escaped_exactly_for_plain_input o "alice" userDN)
    as [Hu [Hg [Hbu Hbg]]].
  split; [reflexivity|].
  split; [apply Hu; reflexivity|].
  split; [apply Hg; reflexivity|].
  split; [apply Hbu; reflexivity | apply Hbg; reflexivity].
Defined.

(** ** [ToArgs] *)

Lemma appendIf_seg b x args : appendIf b x args = (args ++ seg b x)%list.
Proof. destruct b; simpl; [reflexivity | now rewrite app_nil_r]. Qed.

Lemma filter_seg (p : string -> bool) b x : filter p (seg b x) = seg (b && p x) x.
Proof. destruct b; simpl; [destruct (p x); reflexivity | reflexivity]. Qed.

Lemma prefix_nil (s : string) : prefix "" s = true.
Proof. destruct s; reflexivity. Qed.

Lemma ToArgs_chain (o : Options) :
  ToArgs o =
  appendIf (nonEmpty o.(CaCertFile)) (fmt.Sprintf "--ldap.ca-cert-file=/etc/guard/certs/ca.crt" [])
  (appendIf o.(StartTLS) "--ldap.start-tls"
  (appendIf o.(IsSecureLDAP) "--ldap.is-secure-ldap"
  (appendIf o.(SkipTLSVerification) "--ldap.skip-tls-verification"
  (appendIf (nonEmpty o.(GroupNameAttribute)) (fmt.Sprintf "--ldap.group-name-attribute=%s" [o.(GroupNameAttribute)])
  (appendIf (nonEmpty o.(GroupMemberAttribute)) (fmt.Sprintf "--ldap.group-member-attribute=%s" [o.(GroupMemberAttribute)])
  (appendIf (nonEmpty o.(GroupSearchFilter)) (fmt.Sprintf "--ldap.group-search-filter=%s" [o.(GroupSearchFilter)])
  (appendIf (nonEmpty o.(GroupSearchDN)) (fmt.Sprintf "--ldap.group-search-dn=%s" [o.(GroupSearchDN)])
  (appendIf (nonEmpty o.(UserSearchFilter)) (fmt.Sprintf "--ldap.user-attribute=%s" [o.(UserAttribute)])
  (appendIf (nonEmpty o.(UserSearchFilter)) (fmt.Sprintf "--ldap.user-search-filter=%s" [o.(UserSearchFilter)])
  (appendIf (nonEmpty o.(UserSearchDN)) (fmt.Sprintf "--ldap.user-search-dn=%s" [o.(UserSearchDN)])
  (appendIf (nonEmpty o.(BindPassword)) (fmt.Sprintf "--ldap.bind-password=%s" [o.(BindPassword)])
  (appendIf (nonEmpty o.(BindDN)) (fmt.Sprintf "--ldap.bind-dn=%s" [o.(BindDN)])
  (appendIf (nonEmpty o.(ServerPort)) (fmt.Sprintf "--ldap.server-port=%s" [o.(ServerPort)])
  (appendIf (nonEmpty o.(ServerAddress)) (fmt.Sprintf "--ldap.server-address=%s" [o.(ServerAddress)])
  [])))))))))))))).
Proof. reflexivity. Qed.

Lemma ToArgs_segments (o : Options) :
  ToArgs o =
  (seg (nonEmpty o.(ServerAddress)) ("--ldap.server-address=" ++ o.(ServerAddress))
  ++ seg (nonEmpty o.(ServerPort)) ("--ldap.server-port=" ++ o.(ServerPort))
  ++ seg (nonEmpty o.(BindDN)) ("--ldap.bind-dn=" ++ o.(BindDN))
  ++ seg (nonEmpty o.(BindPassword)) ("--ldap.bind-password=" ++ o.(BindPassword))
  ++ seg (nonEmpty o.(UserSearchDN)) ("--ldap.user-search-dn=" ++ o.(UserSearchDN))
  ++ seg (nonEmpty o.(UserSearchFilter)) ("--ldap.user-search-filter=" ++ o.(UserSearchFilter))
  ++ seg (nonEmpty o.(UserSearchFilter)) ("--ldap.user-attribute=" ++ o.(UserAttribute))
  ++ seg (nonEmpty o.(GroupSearchDN)) ("--ldap.group-search-dn=" ++ o.(GroupSearchDN))
  ++ seg (nonEmpty o.(GroupSearchFilter)) ("--ldap.group-search-filter=" ++ o.(GroupSearchFilter))
  ++ seg (nonEmpty o.(GroupMemberAttribute)) ("--ldap.group-member-attribute=" ++ o.(GroupMemberAttribute))
  ++ seg (nonEmpty o.(GroupNameAttribute)) ("--ldap.group-name-attribute=" ++ o.(GroupNameAttribute))
  ++ seg o.(SkipTLSVerification) "--ldap.skip-tls-verification"
  ++ seg o.(IsSecureLDAP) "--ldap.is-secure-ldap"
  ++ seg o.(StartTLS) "--ldap.start-tls"
  ++ seg (nonEmpty o.(CaCertFile)) "--ldap.ca-cert-file=/etc/guard/certs/ca.crt")%list.
Proof.
  rewrite ToArgs_chain.
  rewrite !appendIf_seg.
  cbn [fmt.Sprintf fmt.verb fmt.extra Ascii.eqb Bool.eqb orb append].
  rewrite !append_nil_r.
  cbn [app].
  rewrite <- !app_assoc.
  reflexivity.
Qed.

Lemma filter_user_attribute (o : Options) :
  filter (prefix "--ldap.user-attribute=") (ToArgs o)
  = seg (nonEmpty o.(UserSearchFilter)) ("--ldap.user-attribute=" ++ o.(UserAttribute)).
Proof.
  rewrite ToArgs_segments.
  rewrite !filter_app, !filter_seg.
  simpl.
  rewrite prefix_nil, !andb_false_r, andb_true_r.
  simpl. now rewrite ?app_nil_r.
Qed.

Lemma filter_ca_cert_file (o : Options) :
  filter (prefix "--ldap.ca-cert-file") (ToArgs o)
  = seg (nonEmpty o.(CaCertFile)) "--ldap.ca-cert-file=/etc/guard/certs/ca.crt".
Proof.
  rewrite ToArgs_segments.
  rewrite !filter_app, !filter_seg.
  simpl.
  rewrite !andb_false_r, andb_true_r.
  simpl. now rewrite ?app_nil_r.
Qed.

Lemma nonEmpty_true (s : string) : nonEmpty s = true <-> s <> "".
Proof.
  unfold nonEmpty. rewrite negb_true_iff. apply String.eqb_neq.
Qed.

Lemma In_seg (a : string) (b : bool) (x : string) :
  In a (seg b x) <-> b = true /\ a = x.
Proof.
  destruct b; simpl; intuition congruence.
Qed.

Example ToArgs_filter_without_attribute :
  ToArgs (set_UserSearchFilter "(objectClass=person)" zeroOptions)
  = ["--ldap.user-search-filter=(objectClass=person)"; "--ldap.user-attribute="].
Proof. reflexivity. Qed.

Example ToArgs_attribute_without_filter :
  ToArgs (set_UserAttribute "uid" zeroOptions) = [].
Proof. reflexivity. Qed.

Example ToArgs_ca_cert_path_dropped :
  ToArgs (set_CaCertFile "/home/admin/ldap-ca.pem" zeroOptions)
  = ["--ldap.ca-cert-file=/etc/guard/certs/ca.crt"].
Proof. reflexivity. Qed.

(** C8: [ToArgs] returns an entry beginning with [--ldap.user-attribute=]
    if and only if [UserSearchFilter] is non-empty.  With an empty
    [UserSearchFilter] no such entry is returned, whatever [UserAttribute]
    holds; with a non-empty one the only such entry is the flag followed by
    the content of [UserAttribute], empty or not. *)
Theorem ToArgs_user_attribute (o : Options) :
  ((exists a, In a (ToArgs o) /\ prefix "--ldap.user-attribute=" a = true)
   <-> o.(UserSearchFilter) <> "")
  /\ filter (prefix "--ldap.user-attribute=") (ToArgs o)
     = (if nonEmpty o.(UserSearchFilter)
        then ["--ldap.user-attribute=" ++ o.(UserAttribute)]
        else []).
Proof.
  split; [|apply filter_user_attribute].
  rewrite <- nonEmpty_true. split.
  - intros [a Ha]. apply filter_In in Ha.
    rewrite filter_user_attribute in Ha. apply In_seg in Ha. tauto.
  - intro H. exists ("--ldap.user-attribute=" ++ o.(UserAttribute)).
    apply filter_In. rewrite filter_user_attribute, H. now left.
Qed.

(** C9: with a non-empty [CaCertFile], [ToArgs] returns the fixed entry
    [--ldap.ca-cert-file=/etc/guard/certs/ca.crt] as its only
    ca-cert-file entry, whatever path [CaCertFile] holds; with an empty
    [CaCertFile] it returns no ca-cert-file entry. *)
Theorem ToArgs_ca_cert_file (o : Options) :
  filter (prefix "--ldap.ca-cert-file") (ToArgs o)
  = (if nonEmpty o.(CaCertFile)
     then ["--ldap.ca-cert-file=/etc/guard/certs/ca.crt"]
     else [])
  /\ (In "--ldap.ca-cert-file=/etc/guard/certs/ca.crt" (ToArgs o)
      <-> o.(CaCertFile) <> "").
Proof.
  split; [apply filter_ca_cert_file|].
  rewrite <- nonEmpty_true. split.
  - intro H.
    assert (Hf : In "--ldap.ca-cert-file=/etc/guard/certs/ca.crt"
                   (filter (prefix "--ldap.ca-cert-file") (ToArgs o)))
      by (apply filter_In; split; [exact H | reflexivity]).
    rewrite filter_ca_cert_file in Hf. apply In_seg in Hf. tauto.
  - intro H.
    assert (Hf : In "--ldap.ca-cert-file=/etc/guard/certs/ca.crt"
                   (filter (prefix "--ldap.ca-cert-file") (ToArgs o)))
      by (rewrite filter_ca_cert_file, H; now left).
    apply filter_In in Hf. tauto.
Qed.

(** ** What [ToArgs] keeps of the options *)

(** The entries of [ToArgs o] that begin with a given text. *)
Ltac filter_by_prefix :=
  rewrite ToArgs_segments, !filter_app, !filter_seg;
  simpl;
  rewrite ?prefix_nil, ?andb_false_r, ?andb_true_r;
  simpl; now rewrite ?app_nil_r.

Section ToArgsEntries.

Variable o : Options.

Lemma filter_server_address :
  filter (prefix "--ldap.server-address=") (ToArgs o)
  = seg (nonEmpty o.(ServerAddress)) ("--ldap.server-address=" ++ o.(ServerAddress)).
Proof. filter_by_prefix. Qed.

Lemma filter_server_port :
  filter (prefix "--ldap.server-port=") (ToArgs o)
  = seg (nonEmpty o.(ServerPort)) ("--ldap.server-port=" ++ o.(ServerPort)).
Proof. filter_by_prefix. Qed.

Lemma filter_bind_dn :
  filter (prefix "--ldap.bind-dn=") (ToArgs o)
  = seg (nonEmpty o.(BindDN)) ("--ldap.bind-dn=" ++ o.(BindDN)).
Proof. filter_by_prefix. Qed.

Lemma filter_bind_password :
  filter (prefix "--ldap.bind-password=") (ToArgs o)
  = seg (nonEmpty o.(BindPassword)) ("--ldap.bind-password=" ++ o.(BindPassword)).
Proof. filter_by_prefix. Qed.

Lemma filter_user_search_dn :
  filter (prefix "--ldap.user-search-dn=") (ToArgs o)
  = seg (nonEmpty o.(UserSearchDN)) ("--ldap.user-search-dn=" ++ o.(UserSearchDN)).
Proof. filter_by_prefix. Qed.

Lemma filter_user_search_filter :
  filter (prefix "--ldap.user-search-filter=") (ToArgs o)
  = seg (nonEmpty o.(UserSearchFilter))
        ("--ldap.user-search-filter=" ++ o.(UserSearchFilter)).
Proof. filter_by_prefix. Qed.

Lemma filter_group_search_dn :
  filter (prefix "--ldap.group-search-dn=") (ToArgs o)
  = seg (nonEmpty o.(GroupSearchDN)) ("--ldap.group-search-dn=" ++ o.(GroupSearchDN)).
Proof. filter_by_prefix. Qed.

Lemma filter_group_search_filter :
  filter (prefix "--ldap.group-search-filter=") (ToArgs o)
  = seg (nonEmpty o.(GroupSearchFilter))
        ("--ldap.group-search-filter=" ++ o.(GroupSearchFilter)).
Proof. filter_by_prefix. Qed.

Lemma filter_group_member_attribute :
  filter (prefix "--ldap.group-member-attribute=") (ToArgs o)
  = seg (nonEmpty o.(GroupMemberAttribute))
        ("--ldap.group-member-attribute=" ++ o.(GroupMemberAttribute)).
Proof. filter_by_prefix. Qed.

Lemma filter_group_name_attribute :
  filter (prefix "--ldap.group-name-attribute=") (ToArgs o)
  = seg (nonEmpty o.(GroupNameAttribute))
        ("--ldap.group-name-attribute=" ++ o.(GroupNameAttribute)).
Proof. filter_by_prefix. Qed.

Lemma filter_skip_tls_verification :
  filter (prefix "--ldap.skip-tls-verification") (ToArgs o)
  = seg o.(SkipTLSVerification) "--ldap.skip-tls-verification".
Proof. filter_by_prefix. Qed.

Lemma filter_is_secure_ldap :
  filter (prefix "--ldap.is-secure-ldap") (ToArgs o)
  = seg o.(IsSecureLDAP) "--ldap.is-secure-ldap".
Proof. filter_by_prefix. Qed.

Lemma filter_start_tls :
  filter (prefix "--ldap.start-tls") (ToArgs o)
  = seg o.(StartTLS) "--ldap.start-tls".
Proof. filter_by_prefix. Qed.

End ToArgsEntries.

Lemma nonEmpty_false (s : string) : nonEmpty s = false <-> s = "".
Proof.
  unfold nonEmpty. rewrite negb_false_iff. apply String.eqb_eq.
Qed.

Lemma seg_value_inj (p x x' : string) :
  seg (nonEmpty x) (p ++ x) = seg (nonEmpty x') (p ++ x') -> x = x'.
Proof.
  destruct (nonEmpty x) eqn:E, (nonEmpty x') eqn:E'; simpl; intro H;
    try discriminate.
  - injection H as H. exact (append_inj_l _ _ _ H).
  - apply nonEmpty_false in E, E'. congruence.
Qed.

Lemma seg_flag_inj (b b' : bool) (s : string) : seg b s = seg b' s -> b = b'.
Proof. destruct b, b'; simpl; intro H; congruence. Qed.

Lemma seg_guard_inj (b b' : bool) (x x' : string) :
  seg b x = seg b' x' -> b = b' /\ (b = true -> x = x').
Proof.
  destruct b, b'; simpl; intro H; try discriminate; split; try reflexivity.
  - intros _. congruence.
  - discriminate.
Qed.

Lemma nonEmpty_eq_iff (s s' : string) :
  nonEmpty s = nonEmpty s' <-> (s = "" <-> s' = "").
Proof.
  rewrite <- !nonEmpty_false.
  destruct (nonEmpty s), (nonEmpty s'); intuition congruence.
Qed.

(** X1: two configurations are rendered to the same arguments exactly when
    they agree on every field [ToArgs] reads: all string fields but two and
    the three booleans.  [UserAttribute] counts only under a non-empty
    [UserSearchFilter], and of [CaCertFile] only whether it is empty;
    [CaCertPool] never counts. *)
Theorem ToArgs_eq_iff (o o' : Options) :
  ToArgs o = ToArgs o' <->
  o.(ServerAddress) = o'.(ServerAddress)
  /\ o.(ServerPort) = o'.(ServerPort)
  /\ o.(BindDN) = o'.(BindDN)
  /\ o.(BindPassword) = o'.(BindPassword)
  /\ o.(UserSearchDN) = o'.(UserSearchDN)
  /\ o.(UserSearchFilter) = o'.(UserSearchFilter)
  /\ (o.(UserSearchFilter) <> "" -> o.(UserAttribute) = o'.(UserAttribute))
  /\ o.(GroupSearchDN) = o'.(GroupSearchDN)
  /\ o.(GroupSearchFilter) = o'.(GroupSearchFilter)
  /\ o.(GroupMemberAttribute) = o'.(GroupMemberAttribute)
  /\ o.(GroupNameAttribute) = o'.(GroupNameAttribute)
  /\ o.(SkipTLSVerification) = o'.(SkipTLSVerification)
  /\ o.(IsSecureLDAP) = o'.(IsSecureLDAP)
  /\ o.(StartTLS) = o'.(StartTLS)
  /\ (o.(CaCertFile) = "" <-> o'.(CaCertFile) = "").
Proof.
  split.
  - intro H.
    pose proof (f_equal (filter (prefix "--ldap.server-address=")) H) as H1.
    pose proof (f_equal (filter (prefix "--ldap.server-port=")) H) as H2.
    pose proof (f_equal (filter (prefix "--ldap.bind-dn=")) H) as H3.
    pose proof (f_equal (filter (prefix "--ldap.bind-password=")) H) as H4.
    pose proof (f_equal (filter (prefix "--ldap.user-search-dn=")) H) as H5.
    pose proof (f_equal (filter (prefix "--ldap.user-search-filter=")) H) as H6.
    pose proof (f_equal (filter (prefix "--ldap.user-attribute=")) H) as H7.
    pose proof (f_equal (filter (prefix "--ldap.group-search-dn=")) H) as H8.
    pose proof (f_equal (filter (prefix "--ldap.group-search-filter=")) H) as H9.
    pose proof (f_equal (filter (prefix "--ldap.group-member-attribute=")) H) as H10.
    pose proof (f_equal (filter (prefix "--ldap.group-name-attribute=")) H) as H11.
    pose proof (f_equal (filter (prefix "--ldap.skip-tls-verification")) H) as H12.
    pose proof (f_equal (filter (prefix "--ldap.is-secure-ldap")) H) as H13.
    pose proof (f_equal (filter (prefix "--ldap.start-tls")) H) as H14.
    pose proof (f_equal (filter (prefix "--ldap.ca-cert-file")) H) as H15.
    clear H.
    rewrite !filter_server_address in H1. rewrite !filter_server_port in H2.
    rewrite !filter_bind_dn in H3. rewrite !filter_bind_password in H4.
    rewrite !filter_user_search_dn in H5. rewrite !filter_user_search_filter in H6.
    rewrite !filter_user_attribute in H7. rewrite !filter_group_search_dn in H8.
    rewrite !filter_group_search_filter in H9.
    rewrite !filter_group_member_attribute in H10.
    rewrite !filter_group_name_attribute in H11.
    rewrite !filter_skip_tls_verification in H12.
    rewrite !filter_is_secure_ldap in H13. rewrite !filter_start_tls in H14.
    rewrite !filter_ca_cert_file in H15.
    apply seg_value_inj in H1, H2, H3, H4, H5, H6, H8, H9, H10, H11.
    apply seg_flag_inj in H12, H13, H14.
    apply seg_guard_inj in H7, H15. destruct H7 as [_ H7], H15 as [H15 _].
    apply nonEmpty_eq_iff in H15.
    assert (H7' : o.(UserSearchFilter) <> "" -> o.(UserAttribute) = o'.(UserAttribute)).
    { intro Hne. apply nonEmpty_true in Hne.
      exact (append_inj_l _ _ _ (H7 Hne)). }
    tauto.
  - intros (H1 & H2 & H3 & H4 & H5 & H6 & H7 & H8 & H9 & H10 & H11 & H12
            & H13 & H14 & H15).
    rewrite !ToArgs_segments.
    apply nonEmpty_eq_iff in H15.
    rewrite H1, H2, H3, H4, H5, H8, H9, H10, H11, H12, H13, H14, H15.
    assert (H7' : seg (nonEmpty o.(UserSearchFilter))
                    ("--ldap.user-attribute=" ++ o.(UserAttribute))
                  = seg (nonEmpty o'.(UserSearchFilter))
                    ("--ldap.user-attribute=" ++ o'.(UserAttribute))).
    { rewrite <- H6. destruct (nonEmpty o.(UserSearchFilter)) eqn:E; [|reflexivity].
      apply nonEmpty_true in E. now rewrite (H7 E). }
    rewrite H7', H6. reflexivity.
Qed.

(** ** Flag registration *)

Lemma AddFlags_registers (o : Options) (fs : pflag.FlagSet) :
  evalState (AddFlags fs) o =
  (fs ++
   [ {| pflag.Name := "ldap.server-address";
        pflag.Usage := "Host or IP of the LDAP server";
        pflag.DefValue := o.(ServerAddress) |};
     {| pflag.Name := "ldap.server-port";
        pflag.Usage := "LDAP server port";
        pflag.DefValue := "389" |};
     {| pflag.Name := "ldap.bind-dn";
        pflag.Usage := "The connector uses this DN in credentials to search for users and groups. Not required if the LDAP server provides access for anonymous auth.";
        pflag.DefValue := o.(BindDN) |};
     {| pflag.Name := "ldap.bind-password";
        pflag.Usage := "The connector uses this password in credentials to search for users and groups. Not required if the LDAP server provides access for anonymous auth.";
        pflag.DefValue := o.(BindPassword) |};
     {| pflag.Name := "ldap.user-search-dn";
        pflag.Usage := "BaseDN to start the search user";
        pflag.DefValue := o.(UserSearchDN) |};
     {| pflag.Name := "ldap.user-search-filter";
        pflag.Usage := "Filter to apply when searching user";
        pflag.DefValue := DefaultUserSearchFilter |};
     {| pflag.Name := "ldap.user-attribute";
        pflag.Usage := "Ldap username attribute";
        pflag.DefValue := DefaultUserAttribute |};
     {| pflag.Name := "ldap.group-search-dn";
        pflag.Usage := "BaseDN to start the search group";
        pflag.DefValue := o.(GroupSearchDN) |};
     {| pflag.Name := "ldap.group-search-filter";
        pflag.Usage := "Filter to apply when searching the groups that user is member of";
        pflag.DefValue := DefaultGroupSearchFilter |};
     {| pflag.Name := "ldap.group-member-attribute";
        pflag.Usage := "Ldap group member attribute";
        pflag.DefValue := DefaultGroupMemberAttribute |};
     {| pflag.Name := "ldap.group-name-attribute";
        pflag.Usage := "Ldap group name attribute";
        pflag.DefValue := DefaultGroupNameAttribute |};
     {| pflag.Name := "ldap.skip-tls-verification";
        pflag.Usage := "Skip LDAP server TLS verification, default : false";
        pflag.DefValue := "false" |};
     {| pflag.Name := "ldap.is-secure-ldap";
        pflag.Usage := "Secure LDAP (LDAPS)";
        pflag.DefValue := "false" |};
     {| pflag.Name := "ldap.start-tls";
        pflag.Usage := "Start tls connection";
        pflag.DefValue := "false" |};
     {| pflag.Name := "ldap.ca-cert-file";
        pflag.Usage := "ca cert file that used for self signed server certificate";
        pflag.DefValue := "" |} ])%list.
Proof.
  lazy beta iota zeta delta -[app].
  rewrite <- !app_assoc. reflexivity.
Qed.

Lemma AddFlags_state (o : Options) (fs : pflag.FlagSet) :
  execState (AddFlags fs) o =
  {| ServerAddress := o.(ServerAddress);
     ServerPort := "389";
     BindDN := o.(BindDN);
     BindPassword := o.(BindPassword);
     UserSearchDN := o.(UserSearchDN);
     UserSearchFilter := DefaultUserSearchFilter;
     UserAttribute := DefaultUserAttribute;
     GroupSearchDN := o.(GroupSearchDN);
     GroupSearchFilter := DefaultGroupSearchFilter;
     GroupMemberAttribute := DefaultGroupMemberAttribute;
     GroupNameAttribute := DefaultGroupNameAttribute;
     SkipTLSVerification := false;
     IsSecureLDAP := false;
     StartTLS := false;
     CaCertFile := "";
     CaCertPool := o.(CaCertPool) |}.
Proof. reflexivity. Qed.



(** X4: the arguments of a configuration fresh from [AddFlags] always
    carry the port 389, the two default filters and the three default
    attributes, carry the address, bind DN, bind password and search DNs
    that were set before, and carry no TLS or CA certificate flag. *)
Theorem ToArgs_after_AddFlags (o : Options) (fs : pflag.FlagSet) :
  ToArgs (execState (AddFlags fs) o)
  = (seg (nonEmpty o.(ServerAddress)) ("--ldap.server-address=" ++ o.(ServerAddress))
     ++ ["--ldap.server-port=389"]
     ++ seg (nonEmpty o.(BindDN)) ("--ldap.bind-dn=" ++ o.(BindDN))
     ++ seg (nonEmpty o.(BindPassword)) ("--ldap.bind-password=" ++ o.(BindPassword))
     ++ seg (nonEmpty o.(UserSearchDN)) ("--ldap.user-search-dn=" ++ o.(UserSearchDN))
     ++ ["--ldap.user-search-filter=(objectClass=person)"; "--ldap.user-attribute=uid"]
     ++ seg (nonEmpty o.(GroupSearchDN)) ("--ldap.group-search-dn=" ++ o.(GroupSearchDN))
     ++ ["--ldap.group-search-filter=(objectClass=groupOfNames)";
         "--ldap.group-member-attribute=member";
         "--ldap.group-name-attribute=cn"])%list.
Proof.
  rewrite AddFlags_state, ToArgs_segments. reflexivity.
Qed.

Ltac registered skip :=
  eexists; split;
  [ rewrite AddFlags_registers; apply in_or_app; right; skip; left; reflexivity
  | first [ left; reflexivity
          | right; simpl; first [ reflexivity | apply prefix_nil ] ] ].

(** X5: every argument [ToArgs] returns is [--] and the name of a flag that
    [AddFlags] registers, alone or followed by [=] and a value. *)
Theorem ToArgs_flags_registered (o o' : Options) (fs : pflag.FlagSet) (a : string) :
  In a (ToArgs o) ->
  exists f : pflag.Flag,
    In f (evalState (AddFlags fs) o')
    /\ (a = "--" ++ pflag.Name f
        \/ prefix ("--" ++ pflag.Name f ++ "=") a = true).
Proof.
  rewrite ToArgs_segments. intro H.
  repeat (apply in_app_or in H; destruct H as [H|H]);
    apply In_seg in H; destruct H as [_ ->].
  - registered idtac.
  - registered ltac:(do 1 right).
  - registered ltac:(do 2 right).
  - registered ltac:(do 3 right).
  - registered ltac:(do 4 right).
  - registered ltac:(do 5 right).
  - registered ltac:(do 6 right).
  - registered ltac:(do 7 right).
  - registered ltac:(do 8 right).
  - registered ltac:(do 9 right).
  - registered ltac:(do 10 right).
  - registered ltac:(do 11 right).
  - registered ltac:(do 12 right).
  - registered ltac:(do 13 right).
  - registered ltac:(do 14 right).
Qed.

(** ** Parentheses in the compiled filters *)

Lemma balanced_conjunction_value (base attribute value : string) :
  balanced base = true -> parenFree attribute = true ->
  balanced ("(&" ++ base ++ "(" ++ attribute ++ "=" ++ value ++ "))")
  = keepsDepth value.
Proof.
  intros Hb Ha. unfold balanced, keepsDepth. simpl.
  rewrite depthAfter_app, (balanced_at_depth base 1 Hb). simpl.
  rewrite depthAfter_app, (depthAfter_parenFree attribute 2 Ha). simpl.
  rewrite depthAfter_app.
  destruct (depthAfter value 2) as [[|[|[|d]]]|]; reflexivity.
Qed.

(** X6: under a configured filter with balanced parentheses and an
    attribute name without parentheses, the compiled filter has balanced
    parentheses exactly when the substituted value, read from depth 2,
    closes no parenthesis that is not open and ends at depth 2. *)
Theorem filter_balanced_iff_value_keeps_depth (o : Options) (username userDN : string) :
  (balanced o.(UserSearchFilter) = true -> parenFree o.(UserAttribute) = true ->
   balanced (ldap.Filter (userRequest o username)) = keepsDepth username)
  /\ (balanced o.(GroupSearchFilter) = true ->
      parenFree o.(GroupMemberAttribute) = true ->
      balanced (ldap.Filter (groupRequest o userDN)) = keepsDepth userDN).
Proof.
  split; intros Hb Ha; exact (balanced_conjunction_value _ _ _ Hb Ha).
Qed.

(** With the default configuration, the username [x)(uid=*] keeps the user
    filter balanced and adds a test to it; the user DN [(] unbalances the
    group filter. *)
Lemma filter_restructured_by_username :
  let o := defaultOptions in
  let username := "x)(uid=*" in
  plain username = false
  /\ ldap.Filter (userRequest o username) = "(&(objectClass=person)(uid=x)(uid=*))"
  /\ balanced (ldap.Filter (userRequest o username)) = true
  /\ balanced (ldap.Filter (groupRequest o "(")) = false.
Proof.
  intros o username.
  destruct (filter_balanced_iff_value_keeps_depth o username "(") as [Hu Hg].
  split; [reflexivity|]. split; [reflexivity|].
  split; [rewrite Hu; reflexivity | rewrite Hg; reflexivity].
Defined.

(** X7: under one configuration, two inputs give the same filter only if
    they are the same input, for the user filter and for the group
    filter. *)
Theorem filter_determines_input (o : Options) (u u' : string) :
  (ldap.Filter (userRequest o u) = ldap.Filter (userRequest o u') <-> u = u')
  /\ (ldap.Filter (groupRequest o u) = ldap.Filter (groupRequest o u') <-> u = u').
Proof.
  split; (split; [intro H; exact (conjunction_inj _ _ _ _ H) | intros ->; reflexivity]).
Qed.


(** ** The installer's objects *)

Section InstallerFacts.

Context {P : Packages}.
Variable opts : options.

Lemma newDeployment_containers :
  exists c : core.Container,
    core.Containers (podSpec (newDeployment opts)) = [c]
    /\ core.Args c
       = ("run" :: "--v=3" :: SecureServingOptions_ToArgs
            ++ Token_ToArgs opts.(Token) ++ Google_ToArgs opts.(Google)
            ++ Azure_ToArgs opts.(Azure) ++ ToArgs opts.(LDAP))%list
    /\ core.VolumeMounts c
       = ({| core.VolumeMount_Name := "guard-pki"; core.MountPath := "/etc/guard/pki" |}
          :: seg_of (nonEmpty (Token_AuthFile opts.(Token))
                     || nonEmpty (Google_ServiceAccountJsonFile opts.(Google)))
               {| core.VolumeMount_Name := "guard-auth";
                  core.MountPath := "/etc/guard/auth" |}
          ++ seg_of (nonEmpty opts.(LDAP).(CaCertFile))
               {| core.VolumeMount_Name := "guard-cert";
                  core.MountPath := "/etc/guard/certs/" |})%list.
Proof.
  unfold newDeployment, podSpec.
  destruct (nonEmpty opts.(imagePullSecret)), opts.(runOnMaster),
    (nonEmpty (Token_AuthFile opts.(Token))
     || nonEmpty (Google_ServiceAccountJsonFile opts.(Google))),
    (nonEmpty opts.(LDAP).(CaCertFile));
    eexists; (split; [reflexivity|]); split;
    lazy beta iota zeta delta -[ToArgs app]; rewrite <- ?app_assoc; reflexivity.
Qed.

Lemma newDeployment_podSpec :
  let s := podSpec (newDeployment opts) in
  core.ServiceAccountName s = "guard"
  /\ core.Volumes s
     = ({| core.Volume_Name := "guard-pki";
           core.Volume_VolumeSource :=
             {| core.VolumeSource_Secret :=
               Some {| core.SecretName := "guard-pki";        core.DefaultMode := Some 365%Z |} |} |}
        :: seg_of (nonEmpty (Token_AuthFile opts.(Token))
                   || nonEmpty (Google_ServiceAccountJsonFile opts.(Google)))
             {| core.Volume_Name := "guard-auth";
                core.Volume_VolumeSource :=
                  {| core.VolumeSource_Secret :=
                       Some {| core.SecretName := "guard-auth";
                               core.DefaultMode := Some 365%Z |} |} |}
        ++ seg_of (nonEmpty opts.(LDAP).(CaCertFile))
             {| core.Volume_Name := "guard-cert";
                core.Volume_VolumeSource :=
                  {| core.VolumeSource_Secret :=
                       Some {| core.SecretName := "guard-cert";
                               core.DefaultMode := Some 292%Z |} |} |})%list.
Proof.
  unfold newDeployment, podSpec.
  destruct (nonEmpty opts.(imagePullSecret)), opts.(runOnMaster),
    (nonEmpty (Token_AuthFile opts.(Token))
     || nonEmpty (Google_ServiceAccountJsonFile opts.(Google))),
    (nonEmpty opts.(LDAP).(CaCertFile));
    split; reflexivity.
Qed.

Lemma In_seg_of {A : Type} (a : A) (b : bool) (x : A) :
  In a (seg_of b x) <-> b = true /\ a = x.
Proof. destruct b; simpl; intuition congruence. Qed.

Lemma ToArgs_ca_cert_entry (o : Options) :
  nonEmpty o.(CaCertFile) = true ->
  In "--ldap.ca-cert-file=/etc/guard/certs/ca.crt" (ToArgs o).
Proof.
  intro H.
  assert (Hf : In "--ldap.ca-cert-file=/etc/guard/certs/ca.crt"
                 (filter (prefix "--ldap.ca-cert-file") (ToArgs o)))
    by (rewrite filter_ca_cert_file, H; now left).
  apply filter_In in Hf. tauto.
Qed.

Lemma ToArgs_bind_password_entry (o : Options) :
  In ("--ldap.bind-password=" ++ o.(BindPassword)) (ToArgs o)
  <-> o.(BindPassword) <> "".
Proof.
  rewrite <- nonEmpty_true. split.
  - intro H.
    assert (Hf : In ("--ldap.bind-password=" ++ o.(BindPassword))
                   (filter (prefix "--ldap.bind-password=") (ToArgs o)))
      by (apply filter_In; split; [exact H | simpl; apply prefix_nil]).
    rewrite filter_bind_password in Hf. apply In_seg in Hf. tauto.
  - intro H.
    assert (Hf : In ("--ldap.bind-password=" ++ o.(BindPassword))
                   (filter (prefix "--ldap.bind-password=") (ToArgs o)))
      by (rewrite filter_bind_password, H; now left).
    apply filter_In in Hf. tauto.
Qed.

(** X8: every volume mount of the guard container names a volume of the pod, in
    the same order; every volume is backed by the secret of its own name,
    and no two volumes share a name. *)
Theorem newDeployment_mounts_match_volumes :
  let s := podSpec (newDeployment opts) in
  map core.VolumeMount_Name (flat_map core.VolumeMounts (core.Containers s))
  = map core.Volume_Name (core.Volumes s)
  /\ Forall (fun v => exists src,
                core.VolumeSource_Secret (core.Volume_VolumeSource v) = Some src
                /\ core.SecretName src = core.Volume_Name v) (core.Volumes s)
  /\ NoDup (map core.Volume_Name (core.Volumes s)).
Proof.
  intro s. subst s.
  destruct newDeployment_containers as (c & Hc & _ & Hm).
  destruct newDeployment_podSpec as (_ & Hv).
  rewrite Hc, Hv. cbn [flat_map]. rewrite app_nil_r, Hm.
  destruct (nonEmpty (Token_AuthFile opts.(Token))
            || nonEmpty (Google_ServiceAccountJsonFile opts.(Google))),
    (nonEmpty opts.(LDAP).(CaCertFile)); cbn;
    (split; [reflexivity|]); split;
    repeat (constructor; [first [ eexists; split; reflexivity
                                | cbn; intuition discriminate ]|]);
    constructor.
Qed.

(** X9: the guard container is started with [run], [--v=3] and then the
    arguments of the serving options, the token, Google and Azure
    authenticators and the LDAP options, in this order, whatever volumes,
    selectors and tolerations the options add. *)
Theorem newDeployment_args :
  flat_map core.Args (core.Containers (podSpec (newDeployment opts)))
  = ("run" :: "--v=3" :: SecureServingOptions_ToArgs
       ++ Token_ToArgs opts.(Token) ++ Google_ToArgs opts.(Google)
       ++ Azure_ToArgs opts.(Azure) ++ ToArgs opts.(LDAP))%list.
Proof.
  destruct newDeployment_containers as (c & Hc & Ha & _).
  rewrite Hc. cbn [flat_map]. now rewrite app_nil_r, Ha.
Qed.

(** X10: the certificate volume and the flag that points into it go together:
    the guard container mounts [guard-cert] at [/etc/guard/certs/], and the
    pod holds the volume of the secret [guard-cert], exactly when
    [CaCertFile] is set; then the container is told to read [ca.crt] under
    that mount path. *)
Theorem newDeployment_ldap_ca_cert :
  let s := podSpec (newDeployment opts) in
  let mount := {| core.VolumeMount_Name := "guard-cert";
                  core.MountPath := "/etc/guard/certs/" |} in
  let volume := {| core.Volume_Name := "guard-cert";
                   core.Volume_VolumeSource :=
                     {| core.VolumeSource_Secret :=
                          Some {| core.SecretName := "guard-cert";
                                  core.DefaultMode := Some 292%Z |} |} |} in
  (In mount (flat_map core.VolumeMounts (core.Containers s))
   <-> opts.(LDAP).(CaCertFile) <> "")
  /\ (In volume (core.Volumes s) <-> opts.(LDAP).(CaCertFile) <> "")
  /\ (opts.(LDAP).(CaCertFile) <> "" ->
      In ("--ldap.ca-cert-file=" ++ core.MountPath mount ++ "ca.crt")
         (flat_map core.Args (core.Containers s))).
Proof.
  intros s mount volume. subst s.
  destruct newDeployment_containers as (c & Hc & Ha & Hm).
  destruct newDeployment_podSpec as (_ & Hv).
  rewrite Hc, Hv. cbn [flat_map]. rewrite !app_nil_r, Hm, Ha.
  rewrite <- nonEmpty_true.
  split; [|split].
  - split.
    + intros [H|H]; [discriminate|].
      apply in_app_or in H. destruct H as [H|H]; apply In_seg_of in H;
        destruct H as [H1 H2]; [discriminate | assumption].
    + intro H. right. apply in_or_app. right. rewrite H. now left.
  - split.
    + intros [H|H]; [discriminate|].
      apply in_app_or in H. destruct H as [H|H]; apply In_seg_of in H;
        destruct H as [H1 H2]; [discriminate | assumption].
    + intro H. right. apply in_or_app. right. rewrite H. now left.
  - intro H. right. right. repeat (apply in_or_app; right).
    exact (ToArgs_ca_cert_entry _ H).
Qed.

(** X11: a bind password set in the LDAP options is written, as it is, into the
    arguments of the guard container. *)
Theorem newDeployment_bind_password :
  opts.(LDAP).(BindPassword) <> "" ->
  In ("--ldap.bind-password=" ++ opts.(LDAP).(BindPassword))
     (flat_map core.Args (core.Containers (podSpec (newDeployment opts)))).
Proof.
  intro H.
  destruct newDeployment_containers as (c & Hc & Ha & _).
  rewrite Hc. cbn [flat_map]. rewrite app_nil_r, Ha.
  right. right. repeat (apply in_or_app; right).
  now apply ToArgs_bind_password_entry.
Qed.

(** X12: the objects of one installation refer to each other: the service
    selects the labels of the pod template and targets the port the
    container serves and is probed on; the pod runs as the service account
    of [newServiceAccount]; the cluster role binding grants the cluster role
    of [newClusterRole] to that service account in its namespace. *)
Theorem installer_objects_wired :
  let ns := opts.(namespace) in
  let d := newDeployment opts in
  let svc := newService ns opts.(addr) in
  let sa := newServiceAccount ns in
  let binding := newClusterRoleBinding ns in
  core.Selector (core.Service_Spec svc)
  = metav1.Labels (core.Template_ObjectMeta (apps.Template (apps.Spec d)))
  /\ map core.TargetPort (core.ServiceSpec_Ports (core.Service_Spec svc))
     = map (fun p => intstr.FromInt (core.containerPort p))
           (flat_map core.Ports (core.Containers (podSpec d)))
  /\ metav1.Namespace (core.Service_ObjectMeta svc) = metav1.Namespace (apps.ObjectMeta d)
  /\ core.ServiceAccountName (podSpec d)
     = metav1.Name (core.ServiceAccount_ObjectMeta sa)
  /\ metav1.Namespace (apps.ObjectMeta d)
     = metav1.Namespace (core.ServiceAccount_ObjectMeta sa)
  /\ rbac.RoleRef_Name (rbac.ClusterRoleBinding_RoleRef binding)
     = metav1.Name (rbac.ClusterRole_ObjectMeta (newClusterRole ns))
  /\ rbac.Subjects binding
     = [ {| rbac.Subject_Kind := rbac.ServiceAccountKind;
            rbac.Subject_Name := metav1.Name (core.ServiceAccount_ObjectMeta sa);
            rbac.Subject_Namespace :=
              metav1.Namespace (core.ServiceAccount_ObjectMeta sa) |} ].
Proof.
  intros ns d svc sa binding. subst ns d svc sa binding.
  unfold newService.
  destruct (SplitHostPort opts.(addr)) as [[host port] e].
  destruct (Atoi port) as [svcPort e'].
  unfold newDeployment, podSpec.
  destruct (nonEmpty opts.(imagePullSecret)), opts.(runOnMaster),
    (nonEmpty (Token_AuthFile opts.(Token))
     || nonEmpty (Google_ServiceAccountJsonFile opts.(Google))),
    (nonEmpty opts.(LDAP).(CaCertFile));
    repeat split.
Qed.

End InstallerFacts.


(** ** The installer command *)

Lemma append_assoc (a b c : string) : (a ++ b) ++ c = a ++ b ++ c.
Proof. induction a as [|x a IH]; simpl; [reflexivity | now rewrite IH]. Qed.

Lemma bind_inr {A B : Type} (c : string + A) (k : A -> string + B) (out : B) :
  bind c k = inr out -> exists x, c = inr x /\ k x = inr out.
Proof.
  destruct c as [e|x]; simpl; intro H; [discriminate|].
  exists x. split; [reflexivity | exact H].
Qed.

Lemma written_app (a b : list Document) :
  written (a ++ b) = written a ++ written b.
Proof.
  induction a as [|d a IH]; simpl; [reflexivity|].
  now rewrite IH, !append_assoc.
Qed.

Lemma concat_written (a : list Document) (d : Document) :
  String.concat separator (map snd (a ++ [d])) = written a ++ snd d.
Proof.
  induction a as [|x a IH]; simpl; [reflexivity|].
  rewrite IH.
  destruct (map snd (a ++ [d])) eqn:E.
  - destruct a; discriminate.
  - now rewrite !append_assoc.
Qed.

Ltac invert_Run R :=
  unfold Run in R;
  let port := fresh "port" in
  let Hport := fresh "Hport" in
  apply bind_inr in R; destruct R as (port & Hport & R);
  let Hatoi := fresh "Hatoi" in
  apply bind_inr in R; destruct R as ([] & Hatoi & R);
  let store := fresh "store" in
  let Hstore := fresh "Hstore" in
  destruct (NewCertStore (Join rootDir "pki")) as [?|store] eqn:Hstore;
    [discriminate R|];
  let Hca := fresh "Hca" in
  apply bind_inr in R; destruct R as ([] & Hca & R);
  let Hserver := fresh "Hserver" in
  apply bind_inr in R; destruct R as ([] & Hserver & R);
  let caCert := fresh "caCert" in
  let HcaCert := fresh "HcaCert" in
  apply bind_inr in R; destruct R as (caCert & HcaCert & R);
  let serverCert := fresh "serverCert" in
  let serverKey := fresh "serverKey" in
  let Hpair := fresh "Hpair" in
  apply bind_inr in R; destruct R as ([serverCert serverKey] & Hpair & R);
  cbv zeta in R;
  let buf1 := fresh "buf" in let Hns := fresh "Hns" in
  apply bind_inr in R; destruct R as (buf1 & Hns & R);
  let buf2 := fresh "buf" in let Hsa := fresh "Hsa" in
  apply bind_inr in R; destruct R as (buf2 & Hsa & R);
  let buf3 := fresh "buf" in let Hcr := fresh "Hcr" in
  apply bind_inr in R; destruct R as (buf3 & Hcr & R);
  let buf4 := fresh "buf" in let Hcrb := fresh "Hcrb" in
  apply bind_inr in R; destruct R as (buf4 & Hcrb & R);
  let buf5 := fresh "buf" in let Hpki := fresh "Hpki" in
  apply bind_inr in R; destruct R as (buf5 & Hpki & R);
  let data1 := fresh "data" in let Htoken := fresh "Htoken" in
  apply bind_inr in R; destruct R as (data1 & Htoken & R);
  let data2 := fresh "data" in let Hgoogle := fresh "Hgoogle" in
  apply bind_inr in R; destruct R as (data2 & Hgoogle & R);
  let buf6 := fresh "buf" in let Hauth := fresh "Hauth" in
  apply bind_inr in R; destruct R as (buf6 & Hauth & R);
  let buf7 := fresh "buf" in let Hcert := fresh "Hcert" in
  apply bind_inr in R; destruct R as (buf7 & Hcert & R);
  let buf8 := fresh "buf" in let Hdep := fresh "Hdep" in
  apply bind_inr in R; destruct R as (buf8 & Hdep & R);
  let buf9 := fresh "buf" in let Hsvc := fresh "Hsvc" in
  apply bind_inr in R; destruct R as (buf9 & Hsvc & R);
  injection R as R.

Section CommandFacts.

Context {P : Packages} {H : Host}.

Lemma writeObject_inr (buf : string) (obj : Object) (gv : schema.GroupVersion)
    (after buf' : string) :
  writeObject buf obj gv after = inr buf' ->
  exists yaml, marshals (obj, gv, yaml) /\ buf' = buf ++ yaml ++ after.
Proof.
  unfold writeObject, marshals. cbn [fst snd].
  destruct (MarshalToYAML obj gv) as [e|yaml]; intro E.
  - discriminate.
  - injection E as <-. exists yaml. split; reflexivity.
Qed.

Lemma writeObject_doc (buf : string) (obj : Object) (gv : schema.GroupVersion)
    (buf' : string) :
  writeObject buf obj gv separator = inr buf' ->
  exists yaml, marshals (obj, gv, yaml) /\ buf' = buf ++ written [(obj, gv, yaml)].
Proof.
  intro E. apply writeObject_inr in E. destruct E as (yaml & Hy & ->).
  exists yaml. split; [exact Hy|]. cbn. rewrite ?append_nil_r. reflexivity.
Qed.

Lemma writeObject_if (b : bool) (buf : string) (obj : Object)
    (gv : schema.GroupVersion) (buf' : string) :
  (if b then writeObject buf obj gv separator else inr buf) = inr buf' ->
  exists docs, Forall marshals docs /\ buf' = buf ++ written docs
    /\ (b = false -> docs = [])
    /\ (b = true -> exists yaml, docs = [(obj, gv, yaml)]).
Proof.
  destruct b; intro E.
  - apply writeObject_doc in E. destruct E as (yaml & Hy & ->).
    exists [(obj, gv, yaml)]. repeat split.
    + constructor; [exact Hy | constructor].
    + discriminate.
    + intros _. now exists yaml.
  - injection E as <-. exists []. repeat split.
    + constructor.
    + cbn. now rewrite append_nil_r.
    + discriminate.
Qed.

Lemma writeCert_if (b : bool) (file ns buf buf' : string) :
  (if b
   then match ReadFile file with
        | inl err => Fatalln err
        | inr cert =>
            writeObject buf (SecretObject (newSecretForLDAPCert ns [("ca.crt", cert)]))
              core_SchemeGroupVersion separator
        end
   else inr buf) = inr buf' ->
  exists docs, Forall marshals docs /\ buf' = buf ++ written docs
    /\ (b = false -> docs = [])
    /\ (b = true -> exists cert yaml,
          ReadFile file = inr cert
          /\ docs = [(SecretObject (newSecretForLDAPCert ns [("ca.crt", cert)]),
                      core_SchemeGroupVersion, yaml)]).
Proof.
  destruct b; intro E.
  - destruct (ReadFile file) as [e|cert]; [discriminate|].
    apply writeObject_doc in E. destruct E as (yaml & Hy & ->).
    eexists. split; [constructor; [exact Hy | constructor]|].
    split; [reflexivity|].
    split; [discriminate|]. intros _. exists cert, yaml. split; reflexivity.
  - injection E as <-. exists []. split; [constructor|].
    split; [cbn; now rewrite append_nil_r|].
    split; [reflexivity | discriminate].
Qed.

Variable opts : options.

Lemma secretData_nonempty (data1 data2 : StringMap) :
  (if nonEmpty (Token_AuthFile opts.(Token))
   then match LoadTokenFile (Token_AuthFile opts.(Token)) with
        | Some err => Fatalln err
        | None =>
            match ReadFile (Token_AuthFile opts.(Token)) with
            | inl err => Fatalln err
            | inr tokens => inr ([] ++ [("token.csv", tokens)])%list
            end
        end
   else inr []) = inr data1 ->
  (if nonEmpty (Google_ServiceAccountJsonFile opts.(Google))
   then match ReadFile (Google_ServiceAccountJsonFile opts.(Google)) with
        | inl err => Fatalln err
        | inr sa => inr (data1 ++ [("sa.json", sa)])%list
        end
   else inr data1) = inr data2 ->
  (0 <? List.length data2)%nat
  = nonEmpty (Token_AuthFile opts.(Token))
    || nonEmpty (Google_ServiceAccountJsonFile opts.(Google)).
Proof.
  intros E1 E2.
  destruct (nonEmpty (Token_AuthFile opts.(Token))).
  - destruct (LoadTokenFile (Token_AuthFile opts.(Token))); [discriminate|].
    destruct (ReadFile (Token_AuthFile opts.(Token))); [discriminate|].
    injection E1 as <-.
    destruct (nonEmpty (Google_ServiceAccountJsonFile opts.(Google))).
    + destruct (ReadFile (Google_ServiceAccountJsonFile opts.(Google)));
        [discriminate|]. injection E2 as <-. reflexivity.
    + injection E2 as <-. reflexivity.
  - injection E1 as <-.
    destruct (nonEmpty (Google_ServiceAccountJsonFile opts.(Google))).
    + destruct (ReadFile (Google_ServiceAccountJsonFile opts.(Google)));
        [discriminate|]. injection E2 as <-. reflexivity.
    + injection E2 as <-. reflexivity.
Qed.

(** The documents of a successful run. *)
Lemma Run_documents (out : string) :
  Run opts = inr out ->
  exists (serverCert serverKey caCert : string) (nsDocs authDocs certDocs : list Document)
         (ySA yCR yCRB yPKI yD yS : string),
    let ns := opts.(namespace) in
    let docs :=
      (nsDocs
       ++ [ (ServiceAccountObject (newServiceAccount ns), core_SchemeGroupVersion, ySA);
            (ClusterRoleObject (newClusterRole ns), rbac_SchemeGroupVersion, yCR);
            (ClusterRoleBindingObject (newClusterRoleBinding ns),
             rbac_SchemeGroupVersion, yCRB);
            (SecretObject (newSecret ns serverCert serverKey caCert),
             core_SchemeGroupVersion, yPKI) ]
       ++ authDocs ++ certDocs
       ++ [ (DeploymentObject (newDeployment opts), apps_SchemeGroupVersion, yD);
            (ServiceObject (newService ns opts.(addr)), core_SchemeGroupVersion, yS) ])%list in
    Forall marshals docs
    /\ out = String.concat separator (map snd docs) ++ newline
    /\ (negb (ns =? metav1.NamespaceSystem) && negb (ns =? metav1.NamespaceDefault) = false
        -> nsDocs = [])
    /\ (negb (ns =? metav1.NamespaceSystem) && negb (ns =? metav1.NamespaceDefault) = true
        -> exists yaml,
             nsDocs = [(NamespaceObject (newNamespace ns), core_SchemeGroupVersion, yaml)])
    /\ (nonEmpty (Token_AuthFile opts.(Token))
        || nonEmpty (Google_ServiceAccountJsonFile opts.(Google)) = false
        -> authDocs = [])
    /\ (nonEmpty (Token_AuthFile opts.(Token))
        || nonEmpty (Google_ServiceAccountJsonFile opts.(Google)) = true
        -> exists data yaml,
             authDocs = [(SecretObject (newSecretForTokenAuth ns data),
                          core_SchemeGroupVersion, yaml)])
    /\ (nonEmpty opts.(LDAP).(CaCertFile) = false -> certDocs = [])
    /\ (nonEmpty opts.(LDAP).(CaCertFile) = true ->
        exists cert yaml,
          ReadFile opts.(LDAP).(CaCertFile) = inr cert
          /\ certDocs = [(SecretObject (newSecretForLDAPCert ns [("ca.crt", cert)]),
                          core_SchemeGroupVersion, yaml)])
    /\ (exists store caKey,
          NewCertStore (Join rootDir "pki") = inr store
          /\ ReadBytes store "ca" = inr (caCert, caKey)
          /\ ReadBytes store "server" = inr (serverCert, serverKey)).
Proof.
  intro R. invert_Run R.
  assert (Hpki' : exists caKey,
             ReadBytes store "ca" = inr (caCert, caKey)
             /\ ReadBytes store "server" = inr (serverCert, serverKey)).
  { destruct (ReadBytes store "ca") as [e|[c k]]; [discriminate|].
    injection HcaCert as ->.
    destruct (ReadBytes store "server") as [e|pair]; [discriminate|].
    injection Hpair as ->. now exists k. }
  apply writeObject_if in Hns. destruct Hns as (nsDocs & Fns & E1 & Hns0 & Hns1).
  apply writeObject_doc in Hsa. destruct Hsa as (ySA & HySA & E2).
  apply writeObject_doc in Hcr. destruct Hcr as (yCR & HyCR & E3).
  apply writeObject_doc in Hcrb. destruct Hcrb as (yCRB & HyCRB & E4).
  apply writeObject_doc in Hpki. destruct Hpki as (yPKI & HyPKI & E5).
  rewrite (secretData_nonempty _ _ Htoken Hgoogle) in Hauth.
  apply writeObject_if in Hauth.
  destruct Hauth as (authDocs & Fauth & E6 & Hauth0 & Hauth1).
  apply writeCert_if in Hcert.
  destruct Hcert as (certDocs & Fcert & E7 & Hcert0 & Hcert1).
  apply writeObject_doc in Hdep. destruct Hdep as (yD & HyD & E8).
  apply writeObject_inr in Hsvc. destruct Hsvc as (yS & HyS & E9).
  exists serverCert, serverKey, caCert, nsDocs, authDocs, certDocs,
    ySA, yCR, yCRB, yPKI, yD, yS.
  cbv zeta.
  split; [|split].
  - repeat (apply Forall_app; split); try assumption;
      repeat (constructor; try assumption).
  - subst.
    match goal with
    | |- _ = String.concat _ (map snd (?a ++ ?b ++ ?c ++ ?d ++ [?x; ?y])) ++ _ =>
        replace (a ++ b ++ c ++ d ++ [x; y])%list
          with ((a ++ b ++ c ++ d ++ [x]) ++ [y])%list
          by (rewrite <- !app_assoc; reflexivity)
    end.
    rewrite concat_written, !written_app. cbn [snd written fold_right].
    cbn [append]. rewrite ?append_assoc, ?append_nil_r. reflexivity.
  - destruct Hpki' as (caKey & Hca' & Hserver').
    repeat split; try assumption.
    + intro Hb. destruct (Hauth1 Hb) as (yaml & ->). eauto.
    + exists store, caKey. repeat split; assumption.
Qed.

(** X13: a manifest is printed only when every read succeeded: the address
    splits and its port is a number, the certificate store opens and holds
    the [ca] and [server] pairs, which are read, and each file the options
    name (token file, Google service account file, LDAP CA certificate) is
    read; the token file is also checked. *)
Theorem Run_success_requires (out : string) :
  Run opts = inr out ->
  (exists host port n,
      SplitHostPort opts.(addr) = (host, port, None) /\ Atoi port = (n, None))
  /\ (exists store,
        NewCertStore (Join rootDir "pki") = inr store
        /\ PairExists store "ca" = true
        /\ PairExists store "server" = true
        /\ (exists pair, ReadBytes store "ca" = inr pair)
        /\ (exists pair, ReadBytes store "server" = inr pair))
  /\ (Token_AuthFile opts.(Token) <> "" ->
      LoadTokenFile (Token_AuthFile opts.(Token)) = None
      /\ exists tokens, ReadFile (Token_AuthFile opts.(Token)) = inr tokens)
  /\ (Google_ServiceAccountJsonFile opts.(Google) <> "" ->
      exists sa, ReadFile (Google_ServiceAccountJsonFile opts.(Google)) = inr sa)
  /\ (opts.(LDAP).(CaCertFile) <> "" ->
      exists cert, ReadFile opts.(LDAP).(CaCertFile) = inr cert).
Proof.
  intro R. invert_Run R. clear R.
  split; [|split; [|split; [|split]]].
  - destruct (SplitHostPort opts.(addr)) as [[host port'] [e|]]; [discriminate|].
    injection Hport as ->.
    destruct (Atoi port) as [n [e|]] eqn:Eatoi; [discriminate|].
    now exists host, port, n.
  - exists store. split; [reflexivity|].
    destruct (PairExists store "ca"); [|discriminate].
    destruct (PairExists store "server"); [|discriminate].
    destruct (ReadBytes store "ca") as [e|pair]; [discriminate|].
    destruct (ReadBytes store "server") as [e|pair']; [discriminate|].
    repeat split; eauto.
  - intro Hne. apply nonEmpty_true in Hne. rewrite Hne in Htoken.
    destruct (LoadTokenFile (Token_AuthFile opts.(Token))); [discriminate|].
    destruct (ReadFile (Token_AuthFile opts.(Token))); [discriminate|].
    split; eauto.
  - intro Hne. apply nonEmpty_true in Hne. rewrite Hne in Hgoogle.
    destruct (ReadFile (Google_ServiceAccountJsonFile opts.(Google)));
      [discriminate|]. eauto.
  - intro Hne. apply nonEmpty_true in Hne. rewrite Hne in Hcert.
    destruct (ReadFile opts.(LDAP).(CaCertFile)); [discriminate|]. eauto.
Qed.

(** X14: an address that does not split stops the command at once, with the
    message of the first check. *)
Theorem Run_invalid_address (host port : string) (err : error) :
  SplitHostPort opts.(addr) = (host, port, Some err) ->
  Run opts = inl ("Guard server address is invalid. Reason: " ++ err ++ ".").
Proof.
  intro E. unfold Run. rewrite E. reflexivity.
Qed.

(** X15: the text printed is the YAML documents of a list of objects, joined by
    the separator line and ended by a line end; the list ends with the
    deployment followed by the service, and holds, for every volume of the
    deployment, the secret the volume names, in the namespace of the
    options. *)
Theorem Run_prints_manifest (out : string) :
  Run opts = inr out ->
  exists docs : list Document,
    Forall marshals docs
    /\ out = String.concat separator (map snd docs) ++ newline
    /\ (exists before yD yS,
          docs = (before
                  ++ [ (DeploymentObject (newDeployment opts),
                        apps_SchemeGroupVersion, yD);
                       (ServiceObject (newService opts.(namespace) opts.(addr)),
                        core_SchemeGroupVersion, yS) ])%list)
    /\ (forall v src,
          In v (core.Volumes (podSpec (newDeployment opts))) ->
          core.VolumeSource_Secret (core.Volume_VolumeSource v) = Some src ->
          exists secret yaml,
            In (SecretObject secret, core_SchemeGroupVersion, yaml) docs
            /\ metav1.Name (core.Secret_ObjectMeta secret) = core.SecretName src
            /\ metav1.Namespace (core.Secret_ObjectMeta secret) = opts.(namespace)).
Proof.
  intro R. apply Run_documents in R.
  destruct R as (serverCert & serverKey & caCert & nsDocs & authDocs & certDocs
                 & ySA & yCR & yCRB & yPKI & yD & yS & R).
  cbv zeta in R.
  destruct R as (Fall & Hout & _ & _ & _ & Hauth & _ & Hcert & _).
  eexists. split; [exact Fall|]. split; [exact Hout|]. split.
  - eexists _, yD, yS. rewrite !app_assoc. reflexivity.
  - intros v src Hv Hsrc.
    pose proof (newDeployment_podSpec opts) as Hvol. cbv zeta in Hvol.
    destruct Hvol as (_ & Hvol). rewrite Hvol in Hv.
    destruct Hv as [<-|Hv]; [|apply in_app_or in Hv; destruct Hv as [Hv|Hv]];
      [| apply In_seg_of in Hv; destruct Hv as [Hb ->]
       | apply In_seg_of in Hv; destruct Hv as [Hb ->] ];
      injection Hsrc as <-.
    + eexists _, yPKI.
      split; [apply in_or_app; right; do 3 right; left; reflexivity|].
      split; reflexivity.
    + destruct (Hauth Hb) as (data & yaml & ->).
      eexists _, yaml.
      split; [apply in_or_app; right; apply in_or_app; right; left; reflexivity|].
      split; reflexivity.
    + destruct (Hcert Hb) as (cert & yaml & _ & ->).
      eexists _, yaml.
      split; [apply in_or_app; right; apply in_or_app; right;
              apply in_or_app; right; left; reflexivity|].
      split; reflexivity.
Qed.

(** X16: with an LDAP CA certificate file set, the manifest printed holds the
    secret [guard-cert] of the options' namespace whose one key, [ca.crt],
    carries the content read from that file. *)
Theorem Run_ships_ldap_ca_cert (out : string) :
  Run opts = inr out ->
  opts.(LDAP).(CaCertFile) <> "" ->
  exists (cert yaml : string) (docs : list Document),
    ReadFile opts.(LDAP).(CaCertFile) = inr cert
    /\ Forall marshals docs
    /\ out = String.concat separator (map snd docs) ++ newline
    /\ In (SecretObject
             {| core.Secret_ObjectMeta :=
                  {| metav1.Name := "guard-cert";
                     metav1.Namespace := opts.(namespace);
                     metav1.Labels := labels;
                     metav1.Annotations := [] |};
                core.Data := [("ca.crt", cert)] |},
           core_SchemeGroupVersion, yaml) docs.
Proof.
  intros R Hne. apply nonEmpty_true in Hne. apply Run_documents in R.
  destruct R as (serverCert & serverKey & caCert & nsDocs & authDocs & certDocs
                 & ySA & yCR & yCRB & yPKI & yD & yS & R).
  cbv zeta in R.
  destruct R as (Fall & Hout & _ & _ & _ & _ & _ & Hcert & _).
  destruct (Hcert Hne) as (cert & yaml & Hread & ->).
  exists cert, yaml. eexists. split; [exact Hread|].
  split; [exact Fall|]. split; [exact Hout|].
  apply in_or_app. right. apply in_or_app. right.
  apply in_or_app. right. left. reflexivity.
Qed.

(** X17: the manifest printed starts with the namespace object when the
    namespace of the options is neither [kube-system] nor [default]; for
    these two namespaces it holds no namespace object at all. *)
Theorem Run_namespace_document (out : string) :
  Run opts = inr out ->
  exists docs : list Document,
    Forall marshals docs
    /\ out = String.concat separator (map snd docs) ++ newline
    /\ (opts.(namespace) <> metav1.NamespaceSystem ->
        opts.(namespace) <> metav1.NamespaceDefault ->
        exists yaml rest,
          docs = (NamespaceObject (newNamespace opts.(namespace)),
                  core_SchemeGroupVersion, yaml) :: rest)
    /\ (opts.(namespace) = metav1.NamespaceSystem
        \/ opts.(namespace) = metav1.NamespaceDefault ->
        forall o gv yaml, ~ In (NamespaceObject o, gv, yaml) docs).
Proof.
  intro R. apply Run_documents in R.
  destruct R as (serverCert & serverKey & caCert & nsDocs & authDocs & certDocs
                 & ySA & yCR & yCRB & yPKI & yD & yS & R).
  cbv zeta in R.
  destruct R as (Fall & Hout & Hns0 & Hns1 & Hauth0 & Hauth1 & Hcert0 & Hcert1 & _).
  eexists. split; [exact Fall|]. split; [exact Hout|]. split.
  - intros Hs Hd.
    apply String.eqb_neq in Hs, Hd.
    destruct Hns1 as (yaml & ->); [now rewrite Hs, Hd|].
    eexists yaml, _. reflexivity.
  - intros Hns o gv yaml Hin.
    rewrite Hns0 in Hin
      by (destruct Hns as [-> | ->]; [reflexivity | apply andb_false_r]).
    destruct (nonEmpty (Token_AuthFile opts.(Token))
              || nonEmpty (Google_ServiceAccountJsonFile opts.(Google)));
      [destruct Hauth1 as (data & y & ->); [reflexivity|]
      | rewrite Hauth0 in Hin by reflexivity];
      (destruct (nonEmpty opts.(LDAP).(CaCertFile));
       [destruct Hcert1 as (cert & y' & _ & ->); [reflexivity|]
       | rewrite Hcert0 in Hin by reflexivity]);
      cbn in Hin; intuition discriminate.
Qed.

(** X18: the secret [guard-pki] of the manifest holds three keys: [ca.crt]
    with the certificate of the [ca] pair, and [tls.crt] and [tls.key] with
    the certificate and the key of the [server] pair, as the certificate
    store returned them; the key of the [ca] pair is not among them. *)
Theorem Run_pki_secret (out : string) :
  Run opts = inr out ->
  exists (store : CertStore) (caCert caKey serverCert serverKey yaml : string)
         (docs : list Document),
    NewCertStore (Join rootDir "pki") = inr store
    /\ ReadBytes store "ca" = inr (caCert, caKey)
    /\ ReadBytes store "server" = inr (serverCert, serverKey)
    /\ Forall marshals docs
    /\ out = String.concat separator (map snd docs) ++ newline
    /\ In (SecretObject
             {| core.Secret_ObjectMeta :=
                  {| metav1.Name := "guard-pki";
                     metav1.Namespace := opts.(namespace);
                     metav1.Labels := labels;
                     metav1.Annotations := [] |};
                core.Data := [("ca.crt", caCert); ("tls.crt", serverCert);
                              ("tls.key", serverKey)] |},
           core_SchemeGroupVersion, yaml) docs.
Proof.
  intro R. apply Run_documents in R.
  destruct R as (serverCert & serverKey & caCert & nsDocs & authDocs & certDocs
                 & ySA & yCR & yCRB & yPKI & yD & yS & R).
  cbv zeta in R.
  destruct R as (Fall & Hout & _ & _ & _ & _ & _ & _ & store & caKey & Hs & Hca & Hsrv).
  exists store, caCert, caKey, serverCert, serverKey, yPKI. eexists.
  split; [exact Hs|]. split; [exact Hca|]. split; [exact Hsrv|].
  split; [exact Fall|]. split; [exact Hout|].
  apply in_or_app. right. do 3 right. left. reflexivity.
Qed.

End CommandFacts.

(** ** The model at work *)

#[local] Existing Instance plainPackages.
#[local] Existing Instance plainHost.

(** The argument of a set bind DN carries the name of the flag [ldap.bind-dn]. *)
Lemma ToArgs_bind_dn_registered :
  let o := set_BindDN "cn=admin,dc=example" zeroOptions in
  In "--ldap.bind-dn=cn=admin,dc=example" (ToArgs o)
  /\ exists f : pflag.Flag,
       In f (evalState (AddFlags []) zeroOptions)
       /\ ("--ldap.bind-dn=cn=admin,dc=example" = "--" ++ pflag.Name f
           \/ prefix ("--" ++ pflag.Name f ++ "=") "--ldap.bind-dn=cn=admin,dc=example"
              = true).
Proof.
  intro o.
  assert (Hin : In "--ldap.bind-dn=cn=admin,dc=example" (ToArgs o))
    by (left; reflexivity).
  split; [exact Hin|].
  exact (ToArgs_flags_registered o zeroOptions [] _ Hin).
Defined.

(** The plain installation with the LDAP bind password [s3cret]. *)
Lemma newDeployment_bind_password_s3cret :
  let opts := plainOptions (set_BindPassword "s3cret" defaultOptions) in
  opts.(LDAP).(BindPassword) <> ""
  /\ In "--ldap.bind-password=s3cret"
        (flat_map core.Args (core.Containers (podSpec (newDeployment opts)))).
Proof.
  intro opts.
  assert (Hne : opts.(LDAP).(BindPassword) <> "") by discriminate.
  split; [exact Hne|].
  exact (newDeployment_bind_password opts Hne).
Defined.

(** The plain installation with an LDAP CA certificate file: the run
    succeeds, and so the file was read. *)
Lemma Run_plain_reads_ca_cert :
  let opts := plainOptions (set_CaCertFile "/tmp/ldap-ca.pem" defaultOptions) in
  exists out,
    Run (H := plainHost) opts = inr out
    /\ exists cert, ReadFile (Host := plainHost) "/tmp/ldap-ca.pem" = inr cert.
Proof.
  intro opts. eexists. split; [vm_compute; reflexivity|].
  refine (proj2 (proj2 (proj2 (proj2
            (Run_success_requires (H := plainHost) opts _ _)))) _).
  - vm_compute. reflexivity.
  - discriminate.
Defined.

(** An installation whose address has no port. *)
Lemma Run_address_without_port :
  let opts := @Build_options plainPackages metav1.NamespaceSystem "10.96.10.96" true
                "appscode" "" tt tt tt defaultOptions in
  SplitHostPort opts.(addr) = ("", "", Some "missing port in address")
  /\ Run (H := plainHost) opts
     = inl "Guard server address is invalid. Reason: missing port in address.".
Proof.
  intro opts.
  assert (E : SplitHostPort opts.(addr) = ("", "", Some "missing port in address"))
    by reflexivity.
  split; [exact E|].
  exact (Run_invalid_address (H := plainHost) opts _ _ _ E).
Defined.

(** The plain installation prints five documents, the deployment and the
    service last. *)
Lemma Run_plain_manifest :
  let opts := plainOptions defaultOptions in
  exists out,
    Run (H := plainHost) opts = inr out
    /\ exists docs : list Document,
         out = String.concat separator (map snd docs) ++ newline
         /\ exists before yD yS,
              docs = (before
                      ++ [ (DeploymentObject (newDeployment opts),
                            apps_SchemeGroupVersion, yD);
                           (ServiceObject (newService opts.(namespace) opts.(addr)),
                            core_SchemeGroupVersion, yS) ])%list.
Proof.
  intro opts. eexists. split; [vm_compute; reflexivity|].
  destruct (Run_prints_manifest (H := plainHost) opts _ eq_refl)
    as (docs & _ & Hout & Hend & _).
  exists docs. split; [exact Hout | exact Hend].
Defined.

(** The plain installation with an LDAP CA certificate file ships the file
    in the secret [guard-cert]. *)
Lemma Run_plain_ships_ca_cert :
  let opts := plainOptions (set_CaCertFile "/tmp/ldap-ca.pem" defaultOptions) in
  exists out,
    Run (H := plainHost) opts = inr out
    /\ exists (yaml : string) (docs : list Document),
         out = String.concat separator (map snd docs) ++ newline
         /\ In (SecretObject
                  (newSecretForLDAPCert opts.(namespace)
                     [("ca.crt", "/tmp/ldap-ca.pem")]),
                core_SchemeGroupVersion, yaml) docs.
Proof.
  intro opts. eexists. split; [vm_compute; reflexivity|].
  assert (Hne : opts.(LDAP).(CaCertFile) <> "") by discriminate.
  destruct (Run_ships_ldap_ca_cert (H := plainHost) opts _ eq_refl Hne)
    as (cert & yaml & docs & Hread & _ & Hout & Hin).
  injection Hread as <-.
  exists yaml, docs. split; [exact Hout | exact Hin].
Defined.

(** An installation into the namespace [guard]: the manifest starts with the
    namespace. *)
Lemma Run_guard_namespace :
  let opts := @Build_options plainPackages "guard" "10.96.10.96:443" true
                "appscode" "" tt tt tt defaultOptions in
  exists out,
    Run opts = inr out
    /\ exists (yaml : string) (rest : list Document),
         out = String.concat separator
                 (map snd ((NamespaceObject (newNamespace "guard"),
                            core_SchemeGroupVersion, yaml) :: rest)) ++ newline.
Proof.
  intro opts.
  destruct (Run opts) as [msg|out] eqn:E; [vm_compute in E; discriminate E|].
  exists out. split; [reflexivity|].
  destruct (Run_namespace_document opts out E) as (docs & _ & Hout & Hfirst & _).
  destruct Hfirst as (yaml & rest & ->); [discriminate | discriminate |].
  exists yaml, rest. exact Hout.
Defined.

(** The plain installation ships the pairs of its certificate store. *)
Lemma Run_plain_pki_secret :
  let opts := plainOptions defaultOptions in
  exists out,
    Run opts = inr out
    /\ exists (yaml : string) (docs : list Document),
         out = String.concat separator (map snd docs) ++ newline
         /\ In (SecretObject (newSecret opts.(namespace) "server.crt" "server.key" "ca.crt"),
                core_SchemeGroupVersion, yaml) docs.
Proof.
  intro opts.
  destruct (Run opts) as [msg|out] eqn:E; [vm_compute in E; discriminate E|].
  exists out. split; [reflexivity|].
  destruct (Run_pki_secret opts out E)
    as (store & caCert & caKey & serverCert & serverKey & yaml & docs
        & Hs & Hca & Hsrv & _ & Hout & Hin).
  injection Hs as <-. injection Hca as <- <-. injection Hsrv as <- <-.
  exists yaml, docs. split; [exact Hout | exact Hin].
Defined.
